(** * Task manager micro-services: user service and task service

    A shallow embedding of [src/task-service/main.py] and
    [src/user-service/main.py].  Handlers are functions on an explicit world
    (relational tables, the shared Redis store, the SMTP outbox); a raised
    [HTTPException] is a value of the result type. *)

From Stdlib Require Import ZArith Ascii String List Lia.
From stdpp Require Import base option list gmap strings pretty sorting.

Local Open Scope string_scope.
Local Open Scope Z_scope.
Local Open Scope list_scope.

(** ** Python values used by both services *)

Module Py.

(** Truth value of a [str]: only the empty string is falsy. *)
Definition truthy (s : string) : bool :=
  match s with
  | EmptyString => false
  | String _ _ => true
  end.

(** [not x] for [x : Optional[str]]: [None] and [""] are falsy. *)
Definition not_ (x : option string) : bool :=
  match x with
  | None => true
  | Some s => negb (truthy s)
  end.

(** [x or ""] for [x : Optional[str]]. *)
Definition or_empty (x : option string) : string :=
  match x with
  | None => ""
  | Some s => if truthy s then s else ""
  end.

(** [str(n)] for an [int]: decimal digits, a leading [-] when negative. *)
Definition str (n : Z) : string := pretty n.

(** Characters that [int()] skips around the literal: tab, line feed,
    vertical tab, form feed, carriage return and space. *)
Definition is_space (c : ascii) : bool :=
  let n := nat_of_ascii c in
  ((9 <=? n)%nat && (n <=? 13)%nat) || (n =? 32)%nat.

Definition digit_of (c : ascii) : option Z :=
  let n := nat_of_ascii c in
  if ((48 <=? n)%nat && (n <=? 57)%nat)%bool
  then Some (Z.of_nat n - 48) else None.

Definition is_digit (c : ascii) : Prop := is_Some (digit_of c).

Fixpoint lstrip (l : list ascii) : list ascii :=
  match l with
  | c :: l' => if is_space c then lstrip l' else l
  | [] => []
  end.

Definition strip (l : list ascii) : list ascii :=
  rev (lstrip (rev (lstrip l))).

(** Decimal digits with single underscores allowed between two digits.
    [prev] tells whether the previous character was a digit. *)
Fixpoint digits_value (acc : Z) (prev : bool) (l : list ascii) : option Z :=
  match l with
  | [] => if prev then Some acc else None
  | c :: l' =>
      match digit_of c with
      | Some d => digits_value (10 * acc + d) true l'
      | None =>
          if (Ascii.eqb c "_" && prev)%bool
          then digits_value acc false l'
          else None
      end
  end.

(** The default of [sys.get_int_max_str_digits()]. *)
Definition MAX_STR_DIGITS : Z := 4300.

Definition digit_count (l : list ascii) : Z :=
  Z.of_nat (length (List.filter (fun c => bool_decide (is_digit c)) l)).

(** The digits after the sign: refused when there are more of them than the
    limit allows. *)
Definition literal (l : list ascii) : option Z :=
  if MAX_STR_DIGITS <? digit_count l then None else digits_value 0 false l.

(** What [int(s)] does in base 10 on a [str] of ASCII characters: white
    space around the literal is skipped, one sign is allowed, then digits;
    [None] stands for [ValueError].  It is the reader used where a handler
    has to be run on a concrete value; text outside ASCII is not covered. *)
Definition ascii_int (s : string) : option Z :=
  match strip (list_ascii_of_string s) with
  | [] => None
  | c :: l =>
      if Ascii.eqb c "+" then literal l
      else if Ascii.eqb c "-" then Z.opp <$> literal l
      else literal (c :: l)
  end.

(** The built-in [int] of the interpreter on a [str], base 10; [None]
    stands for [ValueError].  The handlers are stated over it as it is,
    whatever it does on text outside ASCII. *)
Class Builtins := {
  int : string -> option Z
}.

End Py.

(** ** HTTP results *)

(** Exceptions that the handlers raise or let through. *)
Inductive Exception : Type :=
| HTTPException (status_code : Z) (detail : string)
| SMTPException (stage : string)   (* smtplib and socket errors *)
| JSONDecodeError.

(** What a handler body produces: a returned value or a raised exception. *)
Inductive Result (A : Type) : Type :=
| Return (a : A)
| Raise (e : Exception).
Arguments Return {A} a.
Arguments Raise {A} e.

(** What the client sees: the route's status with the body, or a rejection
    with a status and a detail.  An exception that is not an
    [HTTPException] becomes a 500. *)
Inductive Response (A : Type) : Type :=
| Reply (status : Z) (body : A)
| Reject (status : Z) (detail : string).
Arguments Reply {A} status body.
Arguments Reject {A} status detail.

Definition respond {A} (route_status : Z) (r : Result A) : Response A :=
  match r with
  | Return a => Reply route_status a
  | Raise (HTTPException s d) => Reject s d
  | Raise _ => Reject 500 "Internal Server Error"
  end.

Definition response_status {A} (r : Response A) : Z :=
  match r with
  | Reply s _ => s
  | Reject s _ => s
  end.

Definition HTTP_401_UNAUTHORIZED : Z := 401.

Record Request := mkRequest {
  cookies : gmap string string;
  headers : gmap string string     (* keyed by lower-case header name *)
}.

(** ** The shared Redis store *)

Module Redis.

Record entry := mkEntry {
  value : string;
  ttl : option Z     (* seconds left; [None]: no expiry *)
}.

Abbreviation store := (gmap string entry).

Definition get (k : string) (r : store) : option string :=
  value <$> r !! k.

Definition setex (k : string) (seconds : Z) (v : string) (r : store) : store :=
  <[k := mkEntry v (Some seconds)]> r.

Definition delete (k : string) (r : store) : store :=
  base.delete k r.

(** The store evicts an entry once its time to live has run out. *)
Definition age (dt : Z) (e : entry) : option entry :=
  match ttl e with
  | None => Some e
  | Some t => if t <=? dt then None else Some (mkEntry (value e) (Some (t - dt)))
  end.

Definition elapse (dt : Z) (r : store) : store := omap (age dt) r.

End Redis.

(** ** Task service ([src/task-service/main.py]) *)

Module TaskService.

(** Process configuration read from the environment at start-up. *)
Class Settings := {
  SMTP_HOST : string;
  SMTP_PORT : Z;
  SMTP_USER : string;
  SMTP_PASS : string;
  SMTP_FROM : string
}.

(** A row of the [tasks] table. *)
Record Task := mkTask {
  id : Z;
  user_id : Z;
  title : string;
  status : string;       (* 'open' | 'done' *)
  created_at : Z;
  updated_at : Z
}.

(** The [tasks] table with the sequence behind its [SERIAL] key. *)
Record Tasks := mkTasks {
  rows : list Task;
  id_seq : Z
}.

(** [json.dumps] and [json.loads] of the standard library; [None] from
    [json_loads] stands for [JSONDecodeError]. *)
Class JsonLib := {
  Json : Type;
  json_dumps : list Task -> string;
  json_loads : string -> option Json
}.

(** [json.dumps] never produces the empty string. *)
Class JsonLaws `{JsonLib} : Prop := {
  json_dumps_truthy : forall l, Py.truthy (json_dumps l) = true
}.

Record TaskIn := mkTaskIn { data_title : string }.

(** The [MIMEText] message handed to the mail server. *)
Record Message := mkMessage {
  msg_body : string;
  msg_subject : string;
  msg_from : string;
  msg_to : string
}.

(** How the mail server behaves during one request: which of the calls
    on the [smtplib.SMTP] object raises (refused or timed-out connection,
    failed TLS negotiation, rejected credentials, rejected message). *)
Record Smtp := mkSmtp {
  connect_raises : bool;
  starttls_raises : bool;
  login_raises : bool;
  send_message_raises : bool
}.

(** What a request reads from outside: the clock and the mail server. *)
Record Env := mkEnv {
  now : Z;
  smtp : Smtp
}.

Record World := mkWorld {
  db : Tasks;
  redis : Redis.store;
  outbox : list Message;      (* messages accepted by the mail server *)
  smtp_sessions : nat         (* connections opened to the mail server *)
}.

Definition with_db (d : Tasks) (w : World) : World :=
  mkWorld d (redis w) (outbox w) (smtp_sessions w).

Definition with_redis (r : Redis.store) (w : World) : World :=
  mkWorld (db w) r (outbox w) (smtp_sessions w).

(** *** SQL statements *)

(** [WHERE id = :tid AND user_id = :uid] *)
Definition matches (tid uid : Z) (t : Task) : bool :=
  (id t =? tid) && (user_id t =? uid).

(** [ORDER BY created_at DESC]: a row comes before the rows created no
    later than it. *)
Definition newest_first (a b : Task) : Prop := created_at b <= created_at a.

#[export] Instance newest_first_dec : RelDecision newest_first :=
  fun a b => decide (created_at b <= created_at a).

(** [SELECT ... FROM tasks WHERE user_id = :uid ORDER BY created_at DESC] *)
Definition select_tasks (uid : Z) (d : Tasks) : list Task :=
  merge_sort newest_first (filter (fun t => user_id t = uid) (rows d)).

(** [INSERT INTO tasks (user_id, title, status) VALUES (:uid, :title, 'open')
    RETURNING ...]; the key comes from the sequence and both timestamps
    default to [NOW()]. *)
Definition insert_task (uid : Z) (ttl : string) (now : Z) (d : Tasks) : Tasks * Task :=
  let row := mkTask (id_seq d) uid ttl "open" now now in
  (mkTasks (rows d ++ [row]) (id_seq d + 1), row).

(** [SET status = :st, updated_at = NOW()] *)
Definition set_status (st : string) (now : Z) (t : Task) : Task :=
  mkTask (id t) (user_id t) (title t) st (created_at t) now.

(** [UPDATE tasks SET status = :st, updated_at = NOW()
    WHERE id = :tid AND user_id = :uid RETURNING ...] *)
Definition update_status (st : string) (tid uid now : Z) (d : Tasks) : Tasks * list Task :=
  (mkTasks (map (fun t => if matches tid uid t then set_status st now t else t) (rows d))
           (id_seq d),
   map (set_status st now) (List.filter (matches tid uid) (rows d))).

(** [DELETE FROM tasks WHERE id = :tid AND user_id = :uid]; the second
    component is the statement's row count. *)
Definition delete_rows (tid uid : Z) (d : Tasks) : Tasks * nat :=
  (mkTasks (List.filter (fun t => negb (matches tid uid t)) (rows d)) (id_seq d),
   length (List.filter (matches tid uid) (rows d))).

(** *** Auth dependency *)

Section Auth.
Context `{Py.Builtins}.

Definition get_user_id (request : Request) (r : Redis.store) : Result Z :=
  let sid := cookies request !! "sid" in
  if Py.not_ sid then
    Raise (HTTPException HTTP_401_UNAUTHORIZED "No session")
  else
    let user_id := Redis.get ("sid:" +:+ default "" sid) r in
    if Py.not_ user_id then
      Raise (HTTPException HTTP_401_UNAUTHORIZED "Session expired")
    else
      match Py.int (default "" user_id) with
      | Some n => Return n
      | None => Raise (HTTPException 401 "Invalid session")
      end.

(** A request that carries only a session cookie. *)
Definition with_sid (sid : string) : Request :=
  mkRequest {["sid" := sid]} ∅.

(** The session store cannot resolve [sid]: the key is absent (never
    written, or evicted) or its value is not a number. *)
Definition unresolvable (sid : string) (r : Redis.store) : Prop :=
  Redis.get ("sid:" +:+ sid) r = None
  \/ exists v, Redis.get ("sid:" +:+ sid) r = Some v /\ Py.int v = None.

(** Every unresolvable session is rejected in one and the same way. *)
Definition uniform_rejection : Prop :=
  exists e, forall sid r,
    unresolvable sid r -> get_user_id (with_sid sid) r = Raise e.

End Auth.

(** Keys handed out by the sequence are fresh. *)
Definition wf (d : Tasks) : Prop :=
  Forall (fun t => id t < id_seq d) (rows d).

(** *** Email helper *)

Section Handlers.
Context `{Settings} `{JsonLib} `{Py.Builtins}.

Definition send_email_if_configured (to_email subject body : string)
    (m : Smtp) (w : World) : World * Result unit :=
  if negb (Py.truthy SMTP_HOST) || negb (Py.truthy to_email) then
    (w, Return tt)
  else
    let msg := mkMessage body subject SMTP_FROM to_email in
    let w := mkWorld (db w) (redis w) (outbox w) (S (smtp_sessions w)) in
    if connect_raises m then (w, Raise (SMTPException "connect"))
    else if starttls_raises m then (w, Raise (SMTPException "starttls"))
    else if Py.truthy SMTP_USER && login_raises m then
      (w, Raise (SMTPException "login"))
    else if send_message_raises m then (w, Raise (SMTPException "send_message"))
    else (mkWorld (db w) (redis w) (outbox w ++ [msg]) (smtp_sessions w), Return tt).

(** [try: ... except Exception: pass] *)
Definition try_except_pass (r : World * Result unit) : World := fst r.

(** *** Cache helpers *)

Definition cache_key_tasks (user_id : Z) : string :=
  "tasks:" +:+ Py.str user_id.

Definition invalidate_tasks_cache (user_id : Z) (w : World) : World :=
  with_redis (Redis.delete (cache_key_tasks user_id) (redis w)) w.

Definition resolve_email_from_request (request : Request) : option string :=
  headers request !! "x-user-email".

(** *** Handlers *)

(** What [list_tasks] returns: the rows just read, or the decoded cache
    entry. *)
Inductive Listing : Type :=
| Rows (l : list Task)
| Cached (j : Json).

Definition list_tasks (user_id : Z) (w : World) : World * Result Listing :=
  let key := cache_key_tasks user_id in
  let cached := Redis.get key (redis w) in
  if negb (Py.not_ cached) then
    match json_loads (default "" cached) with
    | Some j => (w, Return (Cached j))
    | None => (w, Raise JSONDecodeError)
    end
  else
    let rows := select_tasks user_id (db w) in
    let w := with_redis (Redis.setex key 30 (json_dumps rows) (redis w)) w in
    (w, Return (Rows rows)).

Definition create_task (data : TaskIn) (request : Request) (user_id : Z)
    (e : Env) (w : World) : World * Result Task :=
  let '(d, row) := insert_task user_id (data_title data) (now e) (db w) in
  let w := with_db d w in
  let w := invalidate_tasks_cache user_id w in
  let user_email := resolve_email_from_request request in
  let w := try_except_pass
             (send_email_if_configured (Py.or_empty user_email) "Task created"
                ("<p>Your task '<b>" +:+ title row +:+ "</b>' was created.</p>")
                (smtp e) w) in
  (w, Return row).

Definition mark_done (task_id : Z) (request : Request) (user_id : Z)
    (e : Env) (w : World) : World * Result Task :=
  let '(d, result) := update_status "done" task_id user_id (now e) (db w) in
  match head result with
  | None => (w, Raise (HTTPException 404 "Task not found"))
  | Some row =>
      let w := with_db d w in
      let w := invalidate_tasks_cache user_id w in
      let user_email := resolve_email_from_request request in
      let w := try_except_pass
                 (send_email_if_configured (Py.or_empty user_email) "Task completed"
                    ("<p>Your task '<b>" +:+ title row +:+ "</b>' was marked done.</p>")
                    (smtp e) w) in
      (w, Return row)
  end.

Definition reactivate (task_id : Z) (request : Request) (user_id : Z)
    (e : Env) (w : World) : World * Result Task :=
  let '(d, result) := update_status "open" task_id user_id (now e) (db w) in
  match head result with
  | None => (w, Raise (HTTPException 404 "Task not found"))
  | Some row =>
      let w := with_db d w in
      let w := invalidate_tasks_cache user_id w in
      let user_email := resolve_email_from_request request in
      let w := try_except_pass
                 (send_email_if_configured (Py.or_empty user_email) "Task reactivated"
                    ("<p>Your task '<b>" +:+ title row +:+ "</b>' was reactivated.</p>")
                    (smtp e) w) in
      (w, Return row)
  end.

(** The statement's result is not inspected. *)
Definition delete_task (task_id : Z) (user_id : Z) (w : World) : World * Result unit :=
  let '(d, result) := delete_rows task_id user_id (db w) in
  let w := with_db d w in
  let w := invalidate_tasks_cache user_id w in
  (w, Return tt).

(** The four mutating operations as one request type. *)
Inductive Mutation : Type :=
| Create (data : TaskIn)
| MarkDone (task_id : Z)
| Reactivate (task_id : Z)
| Delete (task_id : Z).

Definition mutate (m : Mutation) (request : Request) (user_id : Z)
    (e : Env) (w : World) : World * Result (option Task) :=
  match m with
  | Create data =>
      let '(w', r) := create_task data request user_id e w in
      (w', match r with Return row => Return (Some row) | Raise x => Raise x end)
  | MarkDone task_id =>
      let '(w', r) := mark_done task_id request user_id e w in
      (w', match r with Return row => Return (Some row) | Raise x => Raise x end)
  | Reactivate task_id =>
      let '(w', r) := reactivate task_id request user_id e w in
      (w', match r with Return row => Return (Some row) | Raise x => Raise x end)
  | Delete task_id =>
      let '(w', r) := delete_task task_id user_id w in
      (w', match r with Return _ => Return None | Raise x => Raise x end)
  end.

(** *** Routes *)

(** [Depends(get_user_id)] and the status of the route decorator. *)
Definition route {A} (route_status : Z) (request : Request)
    (handler : Z -> World -> World * Result A) (w : World) : World * Response A :=
  match get_user_id request (redis w) with
  | Raise e => (w, respond route_status (Raise e))
  | Return user_id =>
      let '(w', r) := handler user_id w in (w', respond route_status r)
  end.

Definition GET_api_tasks (request : Request) (w : World) :=
  route 200 request list_tasks w.

Definition POST_api_tasks (data : TaskIn) (request : Request) (e : Env) (w : World) :=
  route 201 request (fun user_id => create_task data request user_id e) w.

Definition PATCH_api_tasks_done (task_id : Z) (request : Request) (e : Env) (w : World) :=
  route 200 request (fun user_id => mark_done task_id request user_id e) w.

Definition PATCH_api_tasks_reactivate (task_id : Z) (request : Request) (e : Env) (w : World) :=
  route 200 request (fun user_id => reactivate task_id request user_id e) w.

Definition DELETE_api_tasks (task_id : Z) (request : Request) (w : World) :=
  route 204 request (delete_task task_id) w.

End Handlers.

End TaskService.

(** ** User service ([src/user-service/main.py]) *)

Module UserService.

Definition ALGORITHM : string := "HS256".
Definition ACCESS_TOKEN_EXPIRE_MINUTES : Z := 30.

(** [timedelta(minutes=m)], in seconds. *)
Definition timedelta_minutes (m : Z) : Z := 60 * m.

(** Modelled from the spec: the [users] table, whose [CREATE TABLE] is not
    among the sources: a numeric key drawn from a sequence, username,
    email, password hash and creation time. *)
Record UserRow := mkUserRow {
  id : Z;
  username : string;
  email : string;
  password_hash : string;
  created_at : Z
}.

Record Users := mkUsers {
  rows : list UserRow;
  id_seq : Z
}.

(** The signing secret, the [jose.jwt] functions and the [passlib]
    context.  [jwt_decode] reads the clock to check the [exp] claim;
    [None] stands for [JWTError]. *)
Class Crypto := {
  SECRET_KEY : string;
  Token : Type;
  jwt_encode : gmap string Z -> string -> string -> Token;
  jwt_decode : Token -> string -> list string -> Z -> option (gmap string Z);
  pwd_context_hash : string -> string;
  pwd_context_verify : string -> string -> bool
}.

(** [jose.jwt.decode] validates the claims it has decoded: a subject that is
    not a string is refused with [JWTClaimsError], a [JWTError].  The claims
    of this service are numbers, so a signed token that carries a subject is
    refused, whatever the key, the algorithms and the time. *)
Class JoseLaws `{Crypto} : Prop := {
  jwt_decode_int_sub : forall claims key alg key' algs t n,
    claims !! "sub" = Some n ->
    jwt_decode (jwt_encode claims key alg) key' algs t = None
}.

Record UserCreate := mkUserCreate {
  uc_username : string;
  uc_email : string;
  uc_password : string
}.

Record UserLogin := mkUserLogin {
  ul_email : string;
  ul_password : string
}.

Record User := mkUser {
  u_id : Z;
  u_username : string;
  u_email : string;
  u_created_at : Z
}.

Section Handlers.
Context `{Crypto}.

Record TokenOut := mkTokenOut {
  access_token : Token;
  token_type : string
}.

Definition verify_password (plain_password hashed_password : string) : bool :=
  pwd_context_verify plain_password hashed_password.

Definition get_password_hash (password : string) : string :=
  pwd_context_hash password.

(** [expires_delta] is tested for truth: [None] and a zero delta both
    take the default of 15 minutes. *)
Definition create_access_token (data : gmap string Z) (expires_delta : option Z)
    (utcnow : Z) : Token :=
  let to_encode := data in
  let expire :=
    match expires_delta with
    | Some delta => if delta =? 0 then utcnow + timedelta_minutes 15 else utcnow + delta
    | None => utcnow + timedelta_minutes 15
    end in
  let to_encode := <["exp" := expire]> to_encode in
  jwt_encode to_encode SECRET_KEY ALGORITHM.

Definition credentials_exception : Exception :=
  HTTPException HTTP_401_UNAUTHORIZED "Could not validate credentials".

Definition get_current_user (credentials : Token) (utcnow : Z) (d : Users)
    : Result UserRow :=
  match jwt_decode credentials SECRET_KEY [ALGORITHM] utcnow with
  | None => Raise credentials_exception
  | Some payload =>
      match payload !! "sub" with
      | None => Raise credentials_exception
      | Some user_id =>
          (* SELECT * FROM users WHERE id = $1 *)
          match find (fun r => bool_decide (id r = user_id)) (rows d) with
          | None => Raise credentials_exception
          | Some user => Return user
          end
      end
  end.

(** [INSERT INTO users (username, email, password_hash) VALUES ($1, $2, $3)
    RETURNING id] *)
Definition insert_user (name mail hash : string) (now : Z) (d : Users) : Users * Z :=
  let row := mkUserRow (id_seq d) name mail hash now in
  (mkUsers (rows d ++ [row]) (id_seq d + 1), id_seq d).

Definition register (user : UserCreate) (utcnow : Z) (d : Users)
    : Users * Result TokenOut :=
  (* SELECT id FROM users WHERE email = $1 OR username = $2 *)
  let existing_user :=
    find (fun r => bool_decide (email r = uc_email user)
                   || bool_decide (username r = uc_username user)) (rows d) in
  match existing_user with
  | Some _ => (d, Raise (HTTPException 400 "Email or username already registered"))
  | None =>
      let hashed_password := get_password_hash (uc_password user) in
      let '(d, user_id) :=
        insert_user (uc_username user) (uc_email user) hashed_password utcnow d in
      let access_token_expires := timedelta_minutes ACCESS_TOKEN_EXPIRE_MINUTES in
      let access_token :=
        create_access_token {["sub" := user_id]} (Some access_token_expires) utcnow in
      (d, Return (mkTokenOut access_token "bearer"))
  end.

Definition login (user : UserLogin) (utcnow : Z) (d : Users) : Users * Result TokenOut :=
  (* SELECT * FROM users WHERE email = $1 *)
  let db_user := find (fun r => bool_decide (email r = ul_email user)) (rows d) in
  match db_user with
  | None => (d, Raise (HTTPException HTTP_401_UNAUTHORIZED "Incorrect email or password"))
  | Some db_user =>
      if negb (verify_password (ul_password user) (password_hash db_user)) then
        (d, Raise (HTTPException HTTP_401_UNAUTHORIZED "Incorrect email or password"))
      else
        let access_token_expires := timedelta_minutes ACCESS_TOKEN_EXPIRE_MINUTES in
        let access_token :=
          create_access_token {["sub" := id db_user]} (Some access_token_expires) utcnow in
        (d, Return (mkTokenOut access_token "bearer"))
  end.

Definition as_user (r : UserRow) : User :=
  mkUser (id r) (username r) (email r) (created_at r).

Definition validate_token (current_user : UserRow) : Z * string * string :=
  (id current_user, username current_user, email current_user).

Definition get_profile (current_user : UserRow) : User := as_user current_user.

Definition get_users (current_user : UserRow) (d : Users) : list User :=
  map as_user (rows d).

(** *** Routes *)

Inductive Body : Type :=
| TokenBody (t : TokenOut)
| ValidateBody (v : Z * string * string)
| ProfileBody (u : User)
| UsersBody (l : list User).

Inductive Call : Type :=
| PostRegister (user : UserCreate)
| PostLogin (user : UserLogin)
| GetValidate (credentials : Token)
| GetProfile (credentials : Token)
| GetUsers (credentials : Token).

Definition fmap_result {A B} (f : A -> B) (r : Result A) : Result B :=
  match r with
  | Return a => Return (f a)
  | Raise e => Raise e
  end.

(** None of the route decorators sets a status: every route answers 200
    on success. *)
Definition handle (c : Call) (utcnow : Z) (d : Users) : Users * Response Body :=
  match c with
  | PostRegister user =>
      let '(d', r) := register user utcnow d in (d', respond 200 (fmap_result TokenBody r))
  | PostLogin user =>
      let '(d', r) := login user utcnow d in (d', respond 200 (fmap_result TokenBody r))
  | GetValidate credentials =>
      (d, respond 200 (fmap_result (fun u => ValidateBody (validate_token u))
                         (get_current_user credentials utcnow d)))
  | GetProfile credentials =>
      (d, respond 200 (fmap_result (fun u => ProfileBody (get_profile u))
                         (get_current_user credentials utcnow d)))
  | GetUsers credentials =>
      (d, respond 200 (fmap_result (fun u => UsersBody (get_users u d))
                         (get_current_user credentials utcnow d)))
  end.

(** A sequence of requests, each with the time at which it is served. *)
Fixpoint serve (calls : list (Call * Z)) (d : Users) : Users :=
  match calls with
  | [] => d
  | (c, t) :: calls' => serve calls' (fst (handle c t d))
  end.

End Handlers.

End UserService.

(** ** Concrete libraries and settings for running the handlers *)

Module Reference.

Import TaskService.

(** A mail server is configured, with credentials. *)
Definition mail_settings : Settings :=
  {| SMTP_HOST := "smtp.example.com"; SMTP_PORT := 587;
     SMTP_USER := "mailer"; SMTP_PASS := "secret";
     SMTP_FROM := "no-reply@example.com" |}.

(** The defaults of the source: no mail server. *)
Definition default_settings : Settings :=
  {| SMTP_HOST := ""; SMTP_PORT := 587; SMTP_USER := ""; SMTP_PASS := "";
     SMTP_FROM := "no-reply@example.com" |}.

Definition row_text (t : Task) : string :=
  "{" +:+ Py.str (id t) +:+ ", " +:+ Py.str (user_id t) +:+ ", "
      +:+ title t +:+ ", " +:+ status t +:+ ", "
      +:+ Py.str (created_at t) +:+ ", " +:+ Py.str (updated_at t) +:+ "}".

(** A codec that writes rows between brackets and decodes a text to
    itself; it stands in for [json] where a handler has to be run. *)
Definition text_json : JsonLib :=
  {| Json := string;
     json_dumps := fun l => "[" +:+ String.concat ", " (map row_text l) +:+ "]";
     json_loads := fun s => Some s |}.

(** Tokens as the signed claims themselves: verification compares the key
    and the algorithm, checks the expiry against the clock and, as
    [jose.jwt.decode] does, refuses a subject that is not a string; the
    claims are numbers here, so any subject is refused. *)
Definition plain_crypto : UserService.Crypto :=
  {| UserService.SECRET_KEY := "your-secret-key-change-in-production";
     UserService.Token := gmap string Z * string * string;
     UserService.jwt_encode := fun claims key alg => (claims, key, alg);
     UserService.jwt_decode := fun tok key algs t =>
       let '(claims, k, a) := tok in
       if bool_decide (k = key) && bool_decide (a ∈ algs)
          && match claims !! "exp" with Some e => t <=? e | None => true end
          && match claims !! "sub" with Some _ => false | None => true end
       then Some claims else None;
     UserService.pwd_context_hash := fun p => "$" +:+ p;
     UserService.pwd_context_verify := fun p h => bool_decide (h = "$" +:+ p) |}.

(** [int] on ASCII text. *)
Definition ascii_builtins : Py.Builtins := {| Py.int := Py.ascii_int |}.

Definition no_faults : Smtp := mkSmtp false false false false.

(** A mail server that refuses the connection. *)
Definition refused : Smtp := mkSmtp true false false false.

(** User 7 owns an open task and a done one; user 8 owns one task; the
    listing of user 7 is cached. *)
Definition sample_world : World :=
  mkWorld
    (mkTasks [mkTask 1 7 "buy milk" "open" 100 100;
              mkTask 2 8 "call bob" "open" 110 110;
              mkTask 3 7 "pay rent" "done" 120 130] 4)
    {["sid:s7" := Redis.mkEntry "7" (Some 3600);
      "tasks:7" := Redis.mkEntry "[stale]" (Some 12)]}
    [] 0.

Definition sample_request : Request :=
  mkRequest {["sid" := "s7"]} {["x-user-email" := "seven@example.com"]}.

Definition alice : UserService.UserCreate :=
  UserService.mkUserCreate "alice" "a@x.com" "p1".

Definition no_users : UserService.Users := UserService.mkUsers [] 1.

End Reference.

(** ** Invariants and request sequences *)

Module Invariants.

Import TaskService.

(** The primary key of [tasks]: keys are pairwise distinct and lie below
    the next value of the sequence. *)
Definition keyed (d : Tasks) : Prop :=
  wf d /\ NoDup (map id (rows d)).

Section Traces.
Context `{Settings} `{JsonLib}.

(** Whatever is cached for a user is the serialisation of that user's rows
    as the table holds them now. *)
Definition coherent (w : World) : Prop :=
  forall U c,
    Redis.get (cache_key_tasks U) (redis w) = Some c ->
    c = json_dumps (select_tasks U (db w)).

(** The mail server takes the message: none of the calls made on it
    raises. *)
Definition accepts (m : Smtp) : Prop :=
  connect_raises m = false /\ starttls_raises m = false
  /\ send_message_raises m = false
  /\ (SMTP_USER = "" \/ login_raises m = false).

(** The table after the SQL statement that a mutation runs for user [U]
    at time [now]. *)
Definition applied (m : Mutation) (U now : Z) (d : Tasks) : Tasks :=
  match m with
  | Create data => fst (insert_task U (data_title data) now d)
  | MarkDone task_id => fst (update_status "done" task_id U now d)
  | Reactivate task_id => fst (update_status "open" task_id U now d)
  | Delete task_id => fst (delete_rows task_id U d)
  end.

(** What the task service goes through: requests served for a resolved
    user, and time passing in the Redis store. *)
Inductive Op : Type :=
| ListTasks
| Change (m : Mutation).

Inductive Event : Type :=
| Served (user_id : Z) (request : Request) (o : Op) (e : Env)
| Elapsed (dt : Z).

Definition step (ev : Event) (w : World) : World :=
  match ev with
  | Served user_id request ListTasks e => fst (list_tasks user_id w)
  | Served user_id request (Change m) e => fst (mutate m request user_id e w)
  | Elapsed dt => with_redis (Redis.elapse dt (redis w)) w
  end.

Fixpoint run (trace : list Event) (w : World) : World :=
  match trace with
  | [] => w
  | ev :: trace' => run trace' (step ev w)
  end.

End Traces.

Import UserService.

(** The [users] table as its constraints keep it: emails, usernames and
    keys pairwise distinct, keys below the next value of the sequence. *)
Definition consistent (d : Users) : Prop :=
  NoDup (map email (UserService.rows d))
  /\ NoDup (map username (UserService.rows d))
  /\ NoDup (map UserService.id (UserService.rows d))
  /\ Forall (fun r => UserService.id r < UserService.id_seq d) (UserService.rows d).

(** The password context verifies a password against its own hash. *)
Class PwdLaws `{Crypto} : Prop := {
  verify_hash : forall p, pwd_context_verify p (pwd_context_hash p) = true
}.

(** No row of the table carries the email or the username of [user]. *)
Definition unused (user : UserCreate) (d : Users) : Prop :=
  Forall (fun r => email r <> uc_email user /\ username r <> uc_username user)
    (UserService.rows d).

End Invariants.

(** ** Sample request sequences *)

Module Samples.

Import TaskService Invariants Reference.

(** The tasks of [sample_world], one live session and nothing cached. *)
Definition quiet_world : World :=
  mkWorld (db sample_world) {["sid:s7" := Redis.mkEntry "7" (Some 3600)]} [] 0.

Definition request_of_8 : Request := mkRequest {["sid" := "s8"]} ∅.

(** User 7 lists and creates, user 8 deletes a task of user 7 and marks its
    own done, a minute passes, user 7 reactivates and lists again. *)
Definition sample_trace : list Event :=
  [Served 7 sample_request ListTasks (mkEnv 200 no_faults);
   Served 7 sample_request (Change (Create (mkTaskIn "water plants"))) (mkEnv 210 refused);
   Served 8 request_of_8 (Change (Delete 1)) (mkEnv 220 no_faults);
   Served 8 request_of_8 (Change (MarkDone 2)) (mkEnv 230 no_faults);
   Elapsed 60;
   Served 7 sample_request (Change (Reactivate 3)) (mkEnv 300 no_faults);
   Served 7 sample_request ListTasks (mkEnv 310 no_faults)].

Definition bob : UserService.UserCreate :=
  UserService.mkUserCreate "bob" "b@x.com" "p2".

End Samples.

(** * Properties *)

(** ** [int] reads back what [str] writes *)

Module PyFacts.

Import Py.

Lemma digit_of_pretty_N_char d :
  (d < 10)%N -> Py.digit_of (pretty_N_char d) = Some (Z.of_N d).
Proof.
  intros Hd.
  assert (d = 0 \/ d = 1 \/ d = 2 \/ d = 3 \/ d = 4 \/ d = 5 \/ d = 6
          \/ d = 7 \/ d = 8 \/ d = 9)%N as Hcases by lia.
  repeat (destruct Hcases as [-> | Hcases]; [reflexivity |]).
  subst d. reflexivity.
Qed.

Lemma digit_not_space c : is_digit c -> Py.is_space c = false.
Proof.
  unfold is_digit, Py.digit_of, Py.is_space. intros [d Hd].
  destruct (48 <=? nat_of_ascii c)%nat eqn:H1; [| discriminate].
  destruct (nat_of_ascii c <=? 57)%nat eqn:H2; [| discriminate].
  apply Nat.leb_le in H1. apply Nat.leb_le in H2.
  apply orb_false_intro; [apply andb_false_intro2; apply Nat.leb_gt | apply Nat.eqb_neq]; lia.
Qed.

Lemma digit_not_sign c :
  is_digit c -> Ascii.eqb c "+" = false /\ Ascii.eqb c "-" = false.
Proof.
  unfold is_digit, Py.digit_of. intros [d Hd].
  destruct (48 <=? nat_of_ascii c)%nat eqn:H1; [| discriminate].
  apply Nat.leb_le in H1.
  split; apply Ascii.eqb_neq; intros ->; vm_compute in H1; lia.
Qed.

(** The digits written for a positive number are read back as that
    number, whatever was accumulated before them. *)
Lemma digits_value_pretty_N_go x :
  (0 < x)%N ->
  exists k, forall acc prev s,
    Py.digits_value acc prev (list_ascii_of_string (pretty_N_go x s))
    = Py.digits_value (k * acc + Z.of_N x) true (list_ascii_of_string s).
Proof.
  induction (N.lt_wf_0 x) as [x _ IH]. intros Hx.
  assert (Hmod : (x `mod` 10 < 10)%N) by (apply N.mod_lt; lia).
  assert (Hdm : x = (10 * (x `div` 10) + x `mod` 10)%N) by (apply N.div_mod; lia).
  destruct (decide (x `div` 10 = 0)%N) as [Hz | Hnz].
  - exists 10. intros acc prev s.
    rewrite pretty_N_go_step, Hz, pretty_N_go_0 by done. simpl.
    rewrite digit_of_pretty_N_char by done.
    f_equal. lia.
  - destruct (IH (x `div` 10)%N) as [k Hk].
    { apply N.div_lt; lia. }
    { lia. }
    exists (10 * k). intros acc prev s.
    rewrite pretty_N_go_step, Hk by done. simpl.
    rewrite digit_of_pretty_N_char by done.
    f_equal. lia.
Qed.

Lemma pretty_N_go_digits x s :
  Forall is_digit (list_ascii_of_string s) ->
  Forall is_digit (list_ascii_of_string (pretty_N_go x s)).
Proof.
  revert s. induction (N.lt_wf_0 x) as [x _ IH]. intros s Hs.
  destruct (decide (x = 0)%N) as [-> | Hx]; [by rewrite pretty_N_go_0 |].
  rewrite pretty_N_go_step by lia.
  apply IH; [apply N.div_lt; lia |].
  simpl. constructor; [| done].
  unfold is_digit. rewrite digit_of_pretty_N_char; [by eexists |].
  apply N.mod_lt; lia.
Qed.

Lemma lstrip_no_space l :
  Forall (fun c => Py.is_space c = false) l -> Py.lstrip l = l.
Proof. destruct 1 as [| c l Hc _]; simpl; [done |]. by rewrite Hc. Qed.

Lemma strip_no_space l :
  Forall (fun c => Py.is_space c = false) l -> Py.strip l = l.
Proof.
  intros Hl. unfold Py.strip.
  rewrite (lstrip_no_space l Hl), lstrip_no_space, rev_involutive; [done |].
  by apply List.Forall_rev.
Qed.

Lemma digit_count_le l : digit_count l <= Z.of_nat (length l).
Proof.
  unfold digit_count. apply Nat2Z.inj_le.
  induction l as [| c l IH]; simpl; [lia |].
  destruct (bool_decide (is_digit c)); simpl; lia.
Qed.

Lemma length_list_ascii_of_string s :
  length (list_ascii_of_string s) = String.length s.
Proof. induction s as [| c s IH]; simpl; congruence. Qed.

(** Below the limit on the number of digits, the literal is read digit by
    digit. *)
Lemma literal_short l :
  Z.of_nat (length l) <= MAX_STR_DIGITS -> literal l = digits_value 0 false l.
Proof.
  intros Hlen. unfold literal. pose proof (digit_count_le l) as Hc.
  destruct (MAX_STR_DIGITS <? digit_count l) eqn:Hlt; [| done].
  apply Z.ltb_lt in Hlt. lia.
Qed.

Lemma literal_pretty p :
  Z.of_nat (String.length (pretty_N_go (Npos p) "")) <= MAX_STR_DIGITS ->
  literal (list_ascii_of_string (pretty_N_go (Npos p) "")) = Some (Zpos p).
Proof.
  intros Hlen.
  rewrite literal_short by by rewrite length_list_ascii_of_string.
  destruct (digits_value_pretty_N_go (Npos p)) as [k Hk]; [lia |].
  rewrite (Hk 0 false ""). simpl. f_equal. lia.
Qed.

Lemma ascii_int_pretty_positive p :
  Z.of_nat (String.length (pretty (Npos p))) <= MAX_STR_DIGITS ->
  ascii_int (pretty (Npos p)) = Some (Zpos p).
Proof.
  unfold pretty, pretty_N. rewrite decide_False by done. intros Hlen.
  pose proof (pretty_N_go_digits (Npos p) "" (Forall_nil_2 _)) as Hdig.
  pose proof (literal_pretty p Hlen) as Hlit.
  unfold ascii_int. rewrite strip_no_space
    by (eapply Forall_impl; [exact Hdig | apply digit_not_space]).
  destruct (list_ascii_of_string (pretty_N_go (N.pos p) "")) as [| c l] eqn:Hl.
  { discriminate. }
  apply Forall_cons_1 in Hdig as [Hc _].
  by destruct (digit_not_sign c Hc) as [-> ->].
Qed.

(** On decimal text within the limit on the number of digits, [ascii_int]
    reads back the number that [str] wrote. *)
Theorem ascii_int_str n :
  Z.of_nat (String.length (Py.str n)) <= MAX_STR_DIGITS ->
  ascii_int (Py.str n) = Some n.
Proof.
  unfold Py.str, pretty, pretty_Z. destruct n as [| p | p].
  - reflexivity.
  - apply ascii_int_pretty_positive.
  - unfold pretty at 1 2, pretty_positive, pretty, pretty_N.
    rewrite decide_False by done. intros Hlen.
    change (String.length ("-" +:+ pretty_N_go (N.pos p) ""))
      with (S (String.length (pretty_N_go (N.pos p) ""))) in Hlen.
    pose proof (pretty_N_go_digits (Npos p) "" (Forall_nil_2 _)) as Hdig.
    assert (Hns : Forall (fun c => is_space c = false)
                    (list_ascii_of_string (pretty_N_go (N.pos p) "")))
      by (eapply Forall_impl; [exact Hdig | apply digit_not_space]).
    unfold ascii_int.
    change (list_ascii_of_string ("-" +:+ pretty_N_go (N.pos p) ""))
      with ("-"%char :: list_ascii_of_string (pretty_N_go (N.pos p) "")).
    rewrite strip_no_space by (constructor; [reflexivity | done]).
    change (Ascii.eqb "-" "+") with false. change (Ascii.eqb "-" "-") with true.
    cbv iota. rewrite literal_pretty by lia. reflexivity.
Qed.

Lemma ascii_int_empty : ascii_int "" = None.
Proof. reflexivity. Qed.

Lemma truthy_nonempty s : Py.truthy s = true <-> s <> "".
Proof. destruct s; simpl; split; (done || congruence). Qed.

End PyFacts.

(** ** Session resolution *)

Module SessionFacts.

Import TaskService.

Lemma not_Some_truthy s : Py.truthy s = true -> Py.not_ (Some s) = false.
Proof. simpl. by intros ->. Qed.

(** An entry whose time to live has run out is gone from the store. *)
Lemma elapse_evicts k r e t dt :
  r !! k = Some e -> Redis.ttl e = Some t -> t <= dt ->
  Redis.get k (Redis.elapse dt r) = None.
Proof.
  intros He Ht Hle. unfold Redis.get, Redis.elapse.
  rewrite lookup_omap, He. simpl. unfold Redis.age. rewrite Ht.
  destruct (t <=? dt) eqn:Hb; [done |]. apply Z.leb_gt in Hb. lia.
Qed.

(** A live entry keeps its value while time passes. *)
Lemma elapse_keeps k r e dt :
  r !! k = Some e ->
  (forall t, Redis.ttl e = Some t -> dt < t) ->
  Redis.get k (Redis.elapse dt r) = Some (Redis.value e).
Proof.
  intros He Ht. unfold Redis.get, Redis.elapse.
  rewrite lookup_omap, He. simpl. unfold Redis.age.
  destruct (Redis.ttl e) as [t |] eqn:Htt; [| done].
  specialize (Ht t eq_refl).
  destruct (t <=? dt) eqn:Hb; [apply Z.leb_le in Hb; lia | done].
Qed.

Section Resolution.
Context `{Py.Builtins}.

Lemma get_user_id_numeric request r sid v n :
  cookies request !! "sid" = Some sid -> sid <> "" ->
  Redis.get ("sid:" +:+ sid) r = Some v -> v <> "" -> Py.int v = Some n ->
  get_user_id request r = Return n.
Proof.
  intros Hc Hsid Hv Hne Hn. unfold get_user_id.
  rewrite Hc, not_Some_truthy by by apply PyFacts.truthy_nonempty.
  simpl. rewrite Hv, not_Some_truthy by by apply PyFacts.truthy_nonempty.
  simpl. by rewrite Hn.
Qed.

Lemma get_user_id_absent request r sid :
  cookies request !! "sid" = Some sid -> sid <> "" ->
  Redis.get ("sid:" +:+ sid) r = None ->
  get_user_id request r = Raise (HTTPException 401 "Session expired").
Proof.
  intros Hc Hsid Hv. unfold get_user_id.
  rewrite Hc, not_Some_truthy by by apply PyFacts.truthy_nonempty.
  simpl. by rewrite Hv.
Qed.

Lemma get_user_id_empty_value request r sid :
  cookies request !! "sid" = Some sid -> sid <> "" ->
  Redis.get ("sid:" +:+ sid) r = Some "" ->
  get_user_id request r = Raise (HTTPException 401 "Session expired").
Proof.
  intros Hc Hsid Hv. unfold get_user_id.
  rewrite Hc, not_Some_truthy by by apply PyFacts.truthy_nonempty.
  simpl. by rewrite Hv.
Qed.

Lemma get_user_id_malformed request r sid v :
  cookies request !! "sid" = Some sid -> sid <> "" ->
  Redis.get ("sid:" +:+ sid) r = Some v -> v <> "" -> Py.int v = None ->
  get_user_id request r = Raise (HTTPException 401 "Invalid session").
Proof.
  intros Hc Hsid Hv Hne Hn. unfold get_user_id.
  rewrite Hc, not_Some_truthy by by apply PyFacts.truthy_nonempty.
  simpl. rewrite Hv, not_Some_truthy by by apply PyFacts.truthy_nonempty.
  simpl. by rewrite Hn.
Qed.

Lemma get_user_id_no_cookie request r :
  Py.not_ (cookies request !! "sid") = true ->
  get_user_id request r = Raise (HTTPException 401 "No session").
Proof. intros Hc. unfold get_user_id. by rewrite Hc. Qed.

(** A user id is only ever what [int] reads off the value that the store
    holds for the session; every failure is a 401. *)
Lemma get_user_id_sound request r :
  match get_user_id request r with
  | Return n =>
      exists sid v, cookies request !! "sid" = Some sid
                    /\ Redis.get ("sid:" +:+ sid) r = Some v
                    /\ v <> "" /\ Py.int v = Some n
  | Raise e => exists d, e = HTTPException 401 d
  end.
Proof.
  unfold get_user_id.
  destruct (cookies request !! "sid") as [sid |] eqn:Hc; simpl; [| by eexists].
  destruct (Py.truthy sid); simpl; [| by eexists].
  destruct (Redis.get ("sid:" +:+ sid) r) as [v |] eqn:Hv; simpl; [| by eexists].
  destruct (Py.truthy v) eqn:Ht; simpl; [| by eexists].
  destruct (Py.int v) as [n |] eqn:Hn; [| by eexists].
  exists sid, v. by apply PyFacts.truthy_nonempty in Ht.
Qed.

(** C3, amended: a request whose session cookie is missing or empty is
    rejected 401 "No session".  For a request carrying the non-empty
    session id [sid]: a non-empty value stored under [sid:<sid>] that [int]
    reads as a number resolves to that number; an absent key, also one
    evicted at the end of its time to live, is rejected 401 "Session
    expired", and so is an empty value; a non-empty value that [int] refuses
    is rejected 401 "Invalid session"; a user id is returned only when
    [int] reads it off the stored value, and every failure has status
    401. *)
Theorem get_user_id_resolves request r :
  (cookies request !! "sid" = None \/ cookies request !! "sid" = Some "" ->
     get_user_id request r = Raise (HTTPException 401 "No session"))
  /\ forall sid,
       cookies request !! "sid" = Some sid -> sid <> "" ->
       (forall v n,
          Redis.get ("sid:" +:+ sid) r = Some v -> v <> "" -> Py.int v = Some n ->
          get_user_id request r = Return n)
       /\ (Redis.get ("sid:" +:+ sid) r = None ->
           get_user_id request r = Raise (HTTPException 401 "Session expired"))
       /\ (forall e t dt,
             r !! ("sid:" +:+ sid) = Some e -> Redis.ttl e = Some t -> t <= dt ->
             get_user_id request (Redis.elapse dt r)
             = Raise (HTTPException 401 "Session expired"))
       /\ (Redis.get ("sid:" +:+ sid) r = Some "" ->
           get_user_id request r = Raise (HTTPException 401 "Session expired"))
       /\ (forall v,
             Redis.get ("sid:" +:+ sid) r = Some v -> v <> "" -> Py.int v = None ->
             get_user_id request r = Raise (HTTPException 401 "Invalid session"))
       /\ (forall n,
             get_user_id request r = Return n ->
             exists v, Redis.get ("sid:" +:+ sid) r = Some v
                       /\ v <> "" /\ Py.int v = Some n)
       /\ (forall e,
             get_user_id request r = Raise e -> exists d, e = HTTPException 401 d).
Proof.
  split.
  - intros Hc. apply get_user_id_no_cookie. by destruct Hc as [-> | ->].
  - intros sid Hc Hsid.
    refine (conj _ (conj _ (conj _ (conj _ (conj _ (conj _ _)))))).
    + intros v n. by apply get_user_id_numeric.
    + by apply get_user_id_absent.
    + intros e t dt He Ht Hle.
      eapply get_user_id_absent; eauto using elapse_evicts.
    + by apply get_user_id_empty_value.
    + intros v. by apply get_user_id_malformed.
    + intros n Hn. pose proof (get_user_id_sound request r) as Hs.
      rewrite Hn in Hs. destruct Hs as (sid' & v & Hc' & Hv & Hne & Hi).
      rewrite Hc in Hc'. injection Hc' as <-. eauto.
    + intros e He. pose proof (get_user_id_sound request r) as Hs.
      by rewrite He in Hs.
Qed.

End Resolution.

(** *** On concrete stores *)

#[local] Existing Instance Reference.ascii_builtins.

Lemma get_user_id_resolves_witness :
  let r : Redis.store := {["sid:abc" := Redis.mkEntry "7" (Some 3600)]} in
  get_user_id (with_sid "abc") r = Return 7
  /\ get_user_id (with_sid "abc") (Redis.elapse 3600 r)
     = Raise (HTTPException 401 "Session expired")
  /\ get_user_id (with_sid "") r = Raise (HTTPException 401 "No session").
Proof.
  intros r.
  destruct (get_user_id_resolves (with_sid "abc") r) as [_ Hsid].
  destruct (Hsid "abc") as (Hnum & _ & Hexp & _); [reflexivity | discriminate |].
  destruct (get_user_id_resolves (with_sid "") r) as [Hnone _].
  split; [| split].
  - apply (Hnum "7" 7); [reflexivity | discriminate | reflexivity].
  - apply (Hexp (Redis.mkEntry "7" (Some 3600)) 3600 3600);
      [reflexivity | reflexivity | lia].
  - apply Hnone. right. reflexivity.
Defined.

(** C3 as stated fails: with the session id "abc", an absent key is
    rejected with the detail "Session expired" and a stored value that is
    not a number with the detail "Invalid session", so the two are told
    apart.  The empty session id is rejected with "No session" even when
    the store holds a number under [sid:]. *)
Lemma malformed_session_is_told_apart :
  get_user_id (with_sid "abc") ∅ = Raise (HTTPException 401 "Session expired")
  /\ get_user_id (with_sid "abc") {["sid:abc" := Redis.mkEntry "xyz" None]}
     = Raise (HTTPException 401 "Invalid session")
  /\ get_user_id (with_sid "") {["sid:" := Redis.mkEntry "7" None]}
     = Raise (HTTPException 401 "No session")
  /\ ~ uniform_rejection.
Proof.
  split; [reflexivity |]. split; [reflexivity |]. split; [reflexivity |].
  assert (H1 : get_user_id (with_sid "abc") ∅
               = Raise (HTTPException 401 "Session expired")) by reflexivity.
  assert (H2 : get_user_id (with_sid "abc") {["sid:abc" := Redis.mkEntry "xyz" None]}
               = Raise (HTTPException 401 "Invalid session")) by reflexivity.
  intros [e He].
  assert (Ha : get_user_id (with_sid "abc") ∅ = Raise e)
    by (apply He; left; reflexivity).
  assert (Hb : get_user_id (with_sid "abc") {["sid:abc" := Redis.mkEntry "xyz" None]}
               = Raise e)
    by (apply He; right; exists "xyz"; split; reflexivity).
  rewrite H1 in Ha. rewrite H2 in Hb. congruence.
Qed.

End SessionFacts.

(** ** Task store, cache and notifications *)

Module TaskFacts.

Import TaskService.

Section Facts.
Context `{Settings} `{JsonLib}.

(** *** The notification step *)

Lemma send_email_keeps_store to_email subject body m w :
  db (fst (send_email_if_configured to_email subject body m w)) = db w
  /\ redis (fst (send_email_if_configured to_email subject body m w)) = redis w.
Proof.
  unfold send_email_if_configured.
  repeat (match goal with |- context [if ?b then _ else _] => destruct b end);
    simpl; done.
Qed.

Lemma send_email_skipped to_email subject body m w :
  SMTP_HOST = "" \/ to_email = "" ->
  send_email_if_configured to_email subject body m w = (w, Return tt).
Proof.
  unfold send_email_if_configured. intros [-> | ->]; simpl; [done |].
  by rewrite orb_true_r.
Qed.

Lemma send_email_single_attempt to_email subject body m w :
  let w' := fst (send_email_if_configured to_email subject body m w) in
  (smtp_sessions w' <= S (smtp_sessions w))%nat
  /\ (outbox w' = outbox w
      \/ outbox w' = (outbox w ++ [mkMessage body subject SMTP_FROM to_email])%list).
Proof.
  unfold send_email_if_configured.
  repeat (match goal with |- context [if ?b then _ else _] => destruct b end);
    simpl; auto.
Qed.

(** What the handlers do to the world apart from the notification. *)
Lemma try_except_pass_store to_email subject body m w :
  db (try_except_pass (send_email_if_configured to_email subject body m w)) = db w
  /\ redis (try_except_pass (send_email_if_configured to_email subject body m w))
     = redis w.
Proof. apply send_email_keeps_store. Qed.

(** *** SQL statements *)

Lemma filter_matches_nil tid uid (l : list Task) :
  Forall (fun t => matches tid uid t = false) l ->
  List.filter (matches tid uid) l = [].
Proof.
  induction 1 as [| t l Ht _ IH]; simpl; [done |]. by rewrite Ht.
Qed.

Lemma update_status_no_match st tid uid now d :
  Forall (fun t => matches tid uid t = false) (rows d) ->
  update_status st tid uid now d = (d, []).
Proof.
  intros Hno. unfold update_status. rewrite filter_matches_nil by done.
  simpl. f_equal. destruct d as [l s]. simpl in *. f_equal.
  induction Hno as [| t l Ht _ IH]; simpl; [done |]. by rewrite Ht, IH.
Qed.

Lemma delete_rows_no_match tid uid d :
  Forall (fun t => matches tid uid t = false) (rows d) ->
  delete_rows tid uid d = (d, 0%nat).
Proof.
  intros Hno. unfold delete_rows. rewrite filter_matches_nil by done.
  simpl. f_equal. destruct d as [l s]. simpl in *. f_equal.
  induction Hno as [| t l Ht _ IH]; simpl; [done |]. by rewrite Ht, IH.
Qed.

Lemma head_update_status st tid uid now d :
  head (snd (update_status st tid uid now d))
  = set_status st now <$> List.find (matches tid uid) (rows d).
Proof.
  unfold update_status. simpl. induction (rows d) as [| t l IH]; simpl; [done |].
  destruct (matches tid uid t); simpl; done.
Qed.

Lemma find_matches_None tid uid (l : list Task) :
  List.find (matches tid uid) l = None <->
  Forall (fun t => matches tid uid t = false) l.
Proof.
  induction l as [| t l IH]; simpl; [by split |].
  destruct (matches tid uid t) eqn:Ht; split.
  - discriminate.
  - intros Hall. apply Forall_cons_1 in Hall as [? _]. congruence.
  - intros. constructor; [done | by apply IH].
  - intros Hall. apply Forall_cons_1 in Hall as [_ ?]. by apply IH.
Qed.

(** *** Mutations on a task that is absent or owned by someone else *)

(** A task the caller does not own is not matched, whoever owns it. *)
Lemma foreign_not_matched tid U (l : list Task) :
  Forall (fun t => id t = tid -> user_id t <> U) l ->
  Forall (fun t => matches tid U t = false) l.
Proof.
  intros Hl. eapply Forall_impl; [exact Hl |]. intros t Ht. unfold matches.
  destruct (id t =? tid) eqn:H1; [| done].
  apply Z.eqb_eq in H1. simpl. apply Z.eqb_neq. auto.
Qed.

Lemma mark_done_not_found tid request U e w :
  Forall (fun t => id t = tid -> user_id t <> U) (rows (db w)) ->
  mark_done tid request U e w = (w, Raise (HTTPException 404 "Task not found")).
Proof.
  intros Hf. unfold mark_done.
  by rewrite update_status_no_match by by apply foreign_not_matched.
Qed.

Lemma reactivate_not_found tid request U e w :
  Forall (fun t => id t = tid -> user_id t <> U) (rows (db w)) ->
  reactivate tid request U e w = (w, Raise (HTTPException 404 "Task not found")).
Proof.
  intros Hf. unfold reactivate.
  by rewrite update_status_no_match by by apply foreign_not_matched.
Qed.

(** [delete_task] answers the same way whether or not a row matched:
    it never raises, and it always drops the caller's cache entry. *)
Lemma delete_task_always_returns tid U w :
  delete_task tid U w
  = (invalidate_tasks_cache U (with_db (fst (delete_rows tid U (db w))) w),
     Return tt).
Proof. reflexivity. Qed.

Lemma delete_task_not_matched tid U w :
  Forall (fun t => id t = tid -> user_id t <> U) (rows (db w)) ->
  delete_task tid U w = (invalidate_tasks_cache U w, Return tt).
Proof.
  intros Hf. rewrite delete_task_always_returns.
  rewrite delete_rows_no_match by by apply foreign_not_matched.
  by destruct w.
Qed.

(** *** The shape of the two status changes *)

Lemma mark_done_unfold tid request U e w :
  mark_done tid request U e w
  = match List.find (matches tid U) (rows (db w)) with
    | None => (w, Raise (HTTPException 404 "Task not found"))
    | Some t =>
        let row := set_status "done" (now e) t in
        (try_except_pass
           (send_email_if_configured
              (Py.or_empty (resolve_email_from_request request)) "Task completed"
              ("<p>Your task '<b>" +:+ title row +:+ "</b>' was marked done.</p>")
              (smtp e)
              (invalidate_tasks_cache U
                 (with_db (fst (update_status "done" tid U (now e) (db w))) w))),
         Return row)
    end.
Proof.
  unfold mark_done.
  pose proof (head_update_status "done" tid U (now e) (db w)) as Hh.
  destruct (update_status "done" tid U (now e) (db w)) as [d result].
  simpl in Hh. rewrite Hh.
  by destruct (List.find (matches tid U) (rows (db w))).
Qed.

Lemma reactivate_unfold tid request U e w :
  reactivate tid request U e w
  = match List.find (matches tid U) (rows (db w)) with
    | None => (w, Raise (HTTPException 404 "Task not found"))
    | Some t =>
        let row := set_status "open" (now e) t in
        (try_except_pass
           (send_email_if_configured
              (Py.or_empty (resolve_email_from_request request)) "Task reactivated"
              ("<p>Your task '<b>" +:+ title row +:+ "</b>' was reactivated.</p>")
              (smtp e)
              (invalidate_tasks_cache U
                 (with_db (fst (update_status "open" tid U (now e) (db w))) w))),
         Return row)
    end.
Proof.
  unfold reactivate.
  pose proof (head_update_status "open" tid U (now e) (db w)) as Hh.
  destruct (update_status "open" tid U (now e) (db w)) as [d result].
  simpl in Hh. rewrite Hh.
  by destruct (List.find (matches tid U) (rows (db w))).
Qed.

Lemma find_matches_Some tid uid (l : list Task) t :
  List.find (matches tid uid) l = Some t ->
  t ∈ l /\ id t = tid /\ user_id t = uid.
Proof.
  intros Hf. apply find_some in Hf as [Hin Hm].
  unfold matches in Hm. apply andb_true_iff in Hm as [H1 H2].
  apply Z.eqb_eq in H1. apply Z.eqb_eq in H2.
  split; [by apply list_elem_of_In | done].
Qed.

Lemma matches_true tid uid t :
  matches tid uid t = true <-> id t = tid /\ user_id t = uid.
Proof.
  unfold matches. rewrite andb_true_iff, !Z.eqb_eq. done.
Qed.

Lemma find_matches_is_Some tid uid (l : list Task) t :
  t ∈ l -> id t = tid -> user_id t = uid ->
  is_Some (List.find (matches tid uid) l).
Proof.
  intros Hin Hid Hu.
  destruct (List.find (matches tid uid) l) as [t' |] eqn:Hf; [by eexists |].
  apply find_matches_None in Hf.
  rewrite Forall_forall in Hf. specialize (Hf t Hin).
  assert (matches tid uid t = true) by by apply matches_true.
  congruence.
Qed.

(** The table after [UPDATE ... SET status]: row by row. *)
Lemma update_status_rows st tid uid now d i t :
  rows d !! i = Some t ->
  rows (fst (update_status st tid uid now d)) !! i
  = Some (if matches tid uid t then set_status st now t else t).
Proof.
  intros Hi. unfold update_status. simpl.
  change (map ?f ?l) with (f <$> l). by rewrite list_lookup_fmap, Hi.
Qed.

Lemma update_status_elem st tid uid now d t' :
  t' ∈ rows (fst (update_status st tid uid now d)) ->
  exists t, t ∈ rows d
            /\ t' = if matches tid uid t then set_status st now t else t.
Proof.
  unfold update_status. simpl. change (map ?f ?l) with (f <$> l).
  intros Hin. apply list_elem_of_fmap in Hin as (t & -> & Hin). eauto.
Qed.

(** *** Marking done twice *)

(** C8: marking done a task that its owner has already marked done
    returns the row, with status done, and every row of the table
    carrying that id and owner still has status done. *)
Theorem mark_done_again tid request U e w t :
  t ∈ rows (db w) -> id t = tid -> user_id t = U -> status t = "done" ->
  exists w' row,
    mark_done tid request U e w = (w', Return row)
    /\ id row = tid /\ user_id row = U /\ status row = "done"
    /\ (forall t', t' ∈ rows (db w') ->
          id t' = tid -> user_id t' = U -> status t' = "done")
    /\ exists t', t' ∈ rows (db w')
                  /\ id t' = tid /\ user_id t' = U /\ title t' = title t
                  /\ status t' = "done".
Proof.
  intros Hin Hid Hu Hst. rewrite mark_done_unfold.
  destruct (find_matches_is_Some tid U _ t Hin Hid Hu) as [t0 Hf].
  rewrite Hf. cbv zeta. eexists _, _. split; [reflexivity |].
  apply find_matches_Some in Hf as (_ & Hid0 & Hu0).
  repeat split; try done.
  - intros t'. rewrite (proj1 (try_except_pass_store _ _ _ _ _)). simpl.
    intros Hin' Hid' Hu'.
    apply update_status_elem in Hin' as (t1 & _ & ->).
    destruct (matches tid U t1) eqn:Hm; [done |].
    assert (matches tid U t1 = true) by by apply matches_true.
    congruence.
  - exists (set_status "done" (now e) t).
    rewrite (proj1 (try_except_pass_store _ _ _ _ _)). simpl.
    split; [| done].
    apply list_elem_of_lookup in Hin as [i Hi].
    apply list_elem_of_lookup. exists i.
    change (map ?f ?l) with (f <$> l). rewrite list_lookup_fmap, Hi. simpl.
    by rewrite (proj2 (matches_true tid U t)).
Qed.

(** *** What a status change leaves alone *)

Lemma status_change_frame_aux st tid U now d i t :
  rows d !! i = Some t ->
  exists t', rows (fst (update_status st tid U now d)) !! i = Some t'
    /\ id t' = id t /\ user_id t' = user_id t /\ title t' = title t
    /\ created_at t' = created_at t
    /\ (id t = tid /\ user_id t = U -> status t' = st /\ updated_at t' = now)
    /\ (~ (id t = tid /\ user_id t = U) -> t' = t).
Proof.
  intros Hi. eexists. split; [by apply update_status_rows |].
  destruct (matches tid U t) eqn:Hm.
  - apply matches_true in Hm. simpl. intuition.
  - assert (~ (id t = tid /\ user_id t = U))
      by (rewrite <- matches_true; congruence).
    intuition.
Qed.

(** C10: a successful mark-done or reactivate keeps the sequence and the
    number of rows; at every position the row keeps its id, owner, title
    and creation time; the addressed row gets the new status and the
    current time as update time; every other row is unchanged. *)
Theorem status_change_frame tid request U e w w' row :
  mark_done tid request U e w = (w', Return row)
  \/ reactivate tid request U e w = (w', Return row) ->
  id_seq (db w') = id_seq (db w)
  /\ length (rows (db w')) = length (rows (db w))
  /\ forall i t, rows (db w) !! i = Some t ->
       exists t', rows (db w') !! i = Some t'
         /\ id t' = id t /\ user_id t' = user_id t /\ title t' = title t
         /\ created_at t' = created_at t
         /\ (id t = tid /\ user_id t = U ->
               status t' = status row /\ updated_at t' = now e)
         /\ (~ (id t = tid /\ user_id t = U) -> t' = t).
Proof.
  intros [Hop | Hop].
  - rewrite mark_done_unfold in Hop.
    destruct (List.find (matches tid U) (rows (db w))) as [t0 |]; [| discriminate].
    cbv zeta in Hop. injection Hop as <- <-.
    rewrite (proj1 (try_except_pass_store _ _ _ _ _)). simpl.
    split; [done |]. split; [by rewrite length_map |].
    intros i t Hi. by apply (status_change_frame_aux "done").
  - rewrite reactivate_unfold in Hop.
    destruct (List.find (matches tid U) (rows (db w))) as [t0 |]; [| discriminate].
    cbv zeta in Hop. injection Hop as <- <-.
    rewrite (proj1 (try_except_pass_store _ _ _ _ _)). simpl.
    split; [done |]. split; [by rewrite length_map |].
    intros i t Hi. by apply (status_change_frame_aux "open").
Qed.

(** *** The cache-aside listing *)

#[local] Instance newest_first_total : Total newest_first.
Proof. intros a b. unfold newest_first. lia. Qed.

#[local] Instance newest_first_trans : Transitive newest_first.
Proof. intros a b c. unfold newest_first. lia. Qed.

Lemma select_tasks_spec U d :
  select_tasks U d ≡ₚ filter (fun t => user_id t = U) (rows d)
  /\ StronglySorted newest_first (select_tasks U d).
Proof.
  unfold select_tasks. split.
  - apply merge_sort_Permutation.
  - apply StronglySorted_merge_sort; apply _.
Qed.

Lemma get_delete k (r : Redis.store) : Redis.get k (Redis.delete k r) = None.
Proof. unfold Redis.get, Redis.delete. by rewrite lookup_delete_eq. Qed.

Lemma get_setex k n v (r : Redis.store) :
  Redis.get k (Redis.setex k n v r) = Some v.
Proof. unfold Redis.get, Redis.setex. by rewrite lookup_insert_eq. Qed.

Lemma list_tasks_miss U w :
  Py.not_ (Redis.get (cache_key_tasks U) (redis w)) = true ->
  list_tasks U w
  = (with_redis (Redis.setex (cache_key_tasks U) 30
                   (json_dumps (select_tasks U (db w))) (redis w)) w,
     Return (Rows (select_tasks U (db w)))).
Proof. intros Hm. unfold list_tasks. by rewrite Hm. Qed.

Lemma list_tasks_hit U w cached :
  Redis.get (cache_key_tasks U) (redis w) = Some cached -> cached <> "" ->
  list_tasks U w
  = (w, match json_loads cached with
        | Some j => Return (Cached j)
        | None => Raise JSONDecodeError
        end).
Proof.
  intros Hc Hne. unfold list_tasks. rewrite Hc.
  rewrite SessionFacts.not_Some_truthy by by apply PyFacts.truthy_nonempty.
  simpl. by destruct (json_loads cached).
Qed.

(** C5: with no entry under the user's cache key, the listing is the
    user's rows, newest first; it is written under that key, serialised,
    with a time to live of 30 seconds, and returned.  With a non-empty
    entry under the key, the decoded entry is returned and neither the
    table nor the store is touched. *)
Theorem list_tasks_cache_aside U w :
  (Redis.get (cache_key_tasks U) (redis w) = None ->
     exists l,
       list_tasks U w
       = (with_redis (<[cache_key_tasks U := Redis.mkEntry (json_dumps l) (Some 30)]>
                        (redis w)) w,
          Return (Rows l))
       /\ l ≡ₚ filter (fun t => user_id t = U) (rows (db w))
       /\ StronglySorted newest_first l)
  /\ (forall cached,
        Redis.get (cache_key_tasks U) (redis w) = Some cached -> cached <> "" ->
        list_tasks U w
        = (w, match json_loads cached with
              | Some j => Return (Cached j)
              | None => Raise JSONDecodeError
              end)).
Proof.
  split.
  - intros Hnone. exists (select_tasks U (db w)).
    split; [| apply select_tasks_spec].
    apply list_tasks_miss. by rewrite Hnone.
  - intros cached. apply list_tasks_hit.
Qed.

(** After a miss the entry is served to the next reads for as long as
    it lives, and is gone once 30 seconds have passed. *)
Lemma list_tasks_populates `{!JsonLaws} U w dt :
  Redis.get (cache_key_tasks U) (redis w) = None ->
  let w1 := fst (list_tasks U w) in
  let aged := with_redis (Redis.elapse dt (redis w1)) w1 in
  (dt < 30 ->
     list_tasks U aged
     = (aged, match json_loads (json_dumps (select_tasks U (db w))) with
              | Some j => Return (Cached j)
              | None => Raise JSONDecodeError
              end))
  /\ (30 <= dt -> Redis.get (cache_key_tasks U) (redis aged) = None).
Proof.
  intros Hnone. rewrite list_tasks_miss by by rewrite Hnone. simpl. split.
  - intros Hdt. apply list_tasks_hit.
    + simpl. unfold Redis.setex.
      rewrite (SessionFacts.elapse_keeps _ _
                 (Redis.mkEntry (json_dumps (select_tasks U (db w))) (Some 30)) dt);
        [done | apply lookup_insert_eq | simpl; intros t [= <-]; done].
    + apply PyFacts.truthy_nonempty, json_dumps_truthy.
  - intros Hdt. unfold Redis.setex.
    eapply SessionFacts.elapse_evicts; [apply lookup_insert_eq | done | done].
Qed.

(** *** Create, then list *)

Lemma fresh_id_not_listed k U (l : list Task) :
  Forall (fun t => id t <> k) l ->
  filter (fun t => id t = k) (filter (fun t => user_id t = U) l) = [].
Proof.
  induction 1 as [| t l Ht _ IH]; [done |].
  rewrite (filter_cons (fun t => user_id t = U)).
  destruct (decide (user_id t = U)); [| done].
  by rewrite filter_cons_False.
Qed.

Lemma create_task_unfold data request U e w :
  create_task data request U e w
  = let row := mkTask (id_seq (db w)) U (data_title data) "open" (now e) (now e) in
    (try_except_pass
       (send_email_if_configured
          (Py.or_empty (resolve_email_from_request request)) "Task created"
          ("<p>Your task '<b>" +:+ title row +:+ "</b>' was created.</p>")
          (smtp e)
          (invalidate_tasks_cache U
             (with_db (mkTasks (rows (db w) ++ [row]) (id_seq (db w) + 1)) w))),
     Return row).
Proof. reflexivity. Qed.

(** C4: creating a task and then listing, as the same user, returns the
    created row, whose title is the requested one and whose status is
    open; the listing is read from the table, and holds that row exactly
    once. *)
Theorem create_then_list data request U e w :
  wf (db w) ->
  exists w1 row w2 l,
    create_task data request U e w = (w1, Return row)
    /\ list_tasks U w1 = (w2, Return (Rows l))
    /\ title row = data_title data /\ status row = "open" /\ user_id row = U
    /\ l ≡ₚ filter (fun t => user_id t = U) (rows (db w1))
    /\ filter (fun t => id t = id row) l = [row].
Proof.
  intros Hwf. rewrite create_task_unfold. cbv zeta.
  set (row := mkTask (id_seq (db w)) U (data_title data) "open" (now e) (now e)).
  set (w1 := try_except_pass _).
  assert (Hdb : db w1 = mkTasks (rows (db w) ++ [row]) (id_seq (db w) + 1))
    by (unfold w1; by rewrite (proj1 (try_except_pass_store _ _ _ _ _))).
  assert (Hredis : redis w1 = Redis.delete (cache_key_tasks U) (redis w))
    by (unfold w1; by rewrite (proj2 (try_except_pass_store _ _ _ _ _))).
  exists w1, row. eexists _, _. split; [reflexivity |].
  split; [apply list_tasks_miss; by rewrite Hredis, get_delete |].
  destruct (select_tasks_spec U (db w1)) as [Hperm _].
  repeat split; try done.
  apply Permutation_singleton_r. rewrite Hperm, Hdb. simpl.
  rewrite filter_app, (filter_cons_True _ row) by reflexivity.
  rewrite filter_nil, filter_app, (filter_cons_True _ row) by reflexivity.
  rewrite filter_nil.
  rewrite fresh_id_not_listed; [done |].
  eapply Forall_impl; [exact Hwf |]. simpl. intros t Ht. lia.
Qed.

(** *** Mutations, the cache and the notification *)

(** Every mutation either ends with the notification step, run on a
    world that the mail server had no part in, or does not notify at
    all. *)
Lemma mutate_shape m request U e w :
  (exists subject body wc row,
      outbox wc = outbox w /\ smtp_sessions wc = smtp_sessions w
      /\ forall s,
           mutate m request U (mkEnv (now e) s) w
           = (fst (send_email_if_configured
                     (Py.or_empty (resolve_email_from_request request))
                     subject body s wc),
              Return (Some row)))
  \/ (exists wq r,
        outbox wq = outbox w /\ smtp_sessions wq = smtp_sessions w
        /\ (forall stage, r <> Raise (SMTPException stage))
        /\ forall s, mutate m request U (mkEnv (now e) s) w = (wq, r)).
Proof.
  destruct m as [data | tid | tid | tid]; simpl.
  - left. eexists _, _, _, _. split; [| split]; [| | intros s; reflexivity]; done.
  - destruct (List.find (matches tid U) (rows (db w))) as [t |] eqn:Hf.
    + left. eexists _, _, _, _. split; [| split];
        [| | intros s; rewrite mark_done_unfold, Hf; cbn [now smtp]; reflexivity]; done.
    + right. eexists _, _. split; [| split; [| split]];
        [| | | intros s; rewrite mark_done_unfold, Hf; cbn [now smtp]; reflexivity]; done.
  - destruct (List.find (matches tid U) (rows (db w))) as [t |] eqn:Hf.
    + left. eexists _, _, _, _. split; [| split];
        [| | intros s; rewrite reactivate_unfold, Hf; cbn [now smtp]; reflexivity]; done.
    + right. eexists _, _. split; [| split; [| split]];
        [| | | intros s; rewrite reactivate_unfold, Hf; cbn [now smtp]; reflexivity]; done.
  - right. eexists _, _. split; [| split; [| split]];
      [| | | intros s; reflexivity]; done.
Qed.

Lemma env_eta (e : Env) : mkEnv (now e) (smtp e) = e.
Proof. by destruct e. Qed.

(** C9: in every mutation the notification step does nothing when no
    mail host is configured or the request names no recipient; whatever
    the mail server does, the mutation returns the same result and
    leaves the same table and cache; no failure of the mail server
    reaches the caller; at most one connection is opened and at most one
    message handed over. *)
Theorem notification_is_best_effort m request U e w w' r :
  mutate m request U e w = (w', r) ->
  (SMTP_HOST = "" \/ Py.or_empty (resolve_email_from_request request) = "" ->
     outbox w' = outbox w /\ smtp_sessions w' = smtp_sessions w)
  /\ (forall s w'' r',
        mutate m request U (mkEnv (now e) s) w = (w'', r') ->
        r' = r /\ db w'' = db w' /\ redis w'' = redis w')
  /\ (forall stage, r <> Raise (SMTPException stage))
  /\ (smtp_sessions w' <= S (smtp_sessions w))%nat
  /\ (length (outbox w') <= S (length (outbox w)))%nat.
Proof.
  intros Hm. rewrite <- (env_eta e) in Hm.
  destruct (mutate_shape m request U e w)
    as [(subject & body & wc & row & Ho & Hs & Hall)
       | (wq & r0 & Ho & Hs & Hr & Hall)].
  - rewrite Hall in Hm. injection Hm as <- <-.
    pose proof (send_email_single_attempt
                  (Py.or_empty (resolve_email_from_request request))
                  subject body (smtp e) wc) as [Hn Hout].
    cbv zeta in Hn, Hout.
    refine (conj _ (conj _ (conj _ (conj _ _)))).
    + intros Hskip. by rewrite send_email_skipped.
    + intros s w'' r' Hs'. rewrite Hall in Hs'. injection Hs' as <- <-.
      rewrite !(proj1 (send_email_keeps_store _ _ _ _ _)).
      by rewrite !(proj2 (send_email_keeps_store _ _ _ _ _)).
    + done.
    + rewrite <- Hs. exact Hn.
    + rewrite <- Ho. destruct Hout as [-> | ->]; rewrite ?length_app; simpl; lia.
  - rewrite Hall in Hm. injection Hm as <- <-.
    refine (conj _ (conj _ (conj _ (conj _ _)))).
    + done.
    + intros s w'' r' Hs'. rewrite Hall in Hs'. by injection Hs' as <- <-.
    + apply Hr.
    + lia.
    + rewrite Ho. lia.
Qed.

(** The three operations that check their result drop the caller's cache
    entry exactly when they return, and leave the world as it was when
    they raise. *)
Lemma checked_mutation_cache m request U e w :
  (forall tid, m <> Delete tid) ->
  match mutate m request U e w with
  | (w', Return _) =>
      redis w' = Redis.delete (cache_key_tasks U) (redis w)
      /\ Redis.get (cache_key_tasks U) (redis w') = None
  | (w', Raise _) => w' = w
  end.
Proof.
  intros Hnd. destruct m as [data | tid | tid | tid]; unfold mutate.
  - rewrite create_task_unfold. cbv beta iota zeta.
    rewrite (proj2 (try_except_pass_store _ _ _ _ _)). simpl.
    split; [done | apply get_delete].
  - rewrite mark_done_unfold.
    destruct (List.find (matches tid U) (rows (db w))); [| done].
    cbv beta iota zeta.
    rewrite (proj2 (try_except_pass_store _ _ _ _ _)). simpl.
    split; [done | apply get_delete].
  - rewrite reactivate_unfold.
    destruct (List.find (matches tid U) (rows (db w))); [| done].
    cbv beta iota zeta.
    rewrite (proj2 (try_except_pass_store _ _ _ _ _)). simpl.
    split; [done | apply get_delete].
  - by destruct (Hnd tid).
Qed.

(** [Delete] drops the entry whether or not a row matched. *)
Lemma delete_mutation_cache tid request U e w :
  exists w', mutate (Delete tid) request U e w = (w', Return None)
             /\ redis w' = Redis.delete (cache_key_tasks U) (redis w).
Proof. eexists. split; reflexivity. Qed.

End Facts.

(** *** The handlers on concrete worlds *)

#[local] Existing Instance Reference.mail_settings.
#[local] Existing Instance Reference.text_json.
#[local] Existing Instance Reference.ascii_builtins.

Import Reference.

Lemma sample_world_wf : wf (db sample_world).
Proof. repeat constructor; simpl; lia. Qed.

Lemma mark_done_again_witness :
  exists w' row,
    mark_done 3 sample_request 7 (mkEnv 200 Reference.no_faults) sample_world
    = (w', Return row)
    /\ status row = "done".
Proof.
  destruct (mark_done_again 3 sample_request 7 (mkEnv 200 Reference.no_faults)
              sample_world (mkTask 3 7 "pay rent" "done" 120 130))
    as (w' & row & Hrun & _ & _ & Hst & _).
  - unfold sample_world; simpl. set_solver.
  - reflexivity.
  - reflexivity.
  - reflexivity.
  - exists w', row. split; [exact Hrun | exact Hst].
Defined.

Lemma status_change_frame_witness :
  exists w',
    rows (db w') !! 1%nat = Some (mkTask 2 8 "call bob" "open" 110 110)
    /\ id_seq (db w') = 4.
Proof.
  pose (e := mkEnv 200 Reference.no_faults).
  pose (w' := fst (mark_done 1 sample_request 7 e sample_world)).
  destruct (status_change_frame 1 sample_request 7 e sample_world w'
              (mkTask 1 7 "buy milk" "done" 100 200))
    as (Hseq & _ & Hrows).
  - left. reflexivity.
  - exists w'. split; [| exact Hseq].
    destruct (Hrows 1%nat (mkTask 2 8 "call bob" "open" 110 110) eq_refl)
      as (t' & Ht' & _ & _ & _ & _ & _ & Hsame).
    rewrite Ht'. f_equal. apply Hsame. simpl. lia.
Defined.

Lemma create_then_list_witness :
  wf (db sample_world)
  /\ exists w1 row w2 l,
       create_task (mkTaskIn "water plants") sample_request 7
         (mkEnv 200 refused) sample_world = (w1, Return row)
       /\ list_tasks 7 w1 = (w2, Return (Rows l))
       /\ filter (fun t => id t = id row) l = [row].
Proof.
  split; [exact sample_world_wf |].
  destruct (create_then_list (mkTaskIn "water plants") sample_request 7
              (mkEnv 200 refused) sample_world sample_world_wf)
    as (w1 & row & w2 & l & Hc & Hl & _ & _ & _ & _ & Honce).
  exists w1, row, w2, l. auto.
Defined.

Lemma list_tasks_cache_aside_witness :
  (exists l, fst (list_tasks 8 sample_world)
             = with_redis (<[cache_key_tasks 8 := Redis.mkEntry (json_dumps l) (Some 30)]>
                             (redis sample_world)) sample_world)
  /\ list_tasks 7 sample_world = (sample_world, Return (Cached "[stale]")).
Proof.
  destruct (list_tasks_cache_aside 8 sample_world) as [Hmiss _].
  destruct (list_tasks_cache_aside 7 sample_world) as [_ Hhit].
  split.
  - destruct (Hmiss eq_refl) as (l & Hl & _). exists l. by rewrite Hl.
  - apply (Hhit "[stale]"); [reflexivity | discriminate].
Defined.

Lemma notification_is_best_effort_witness :
  exists w' r,
    mutate (MarkDone 1) sample_request 7 (mkEnv 200 refused) sample_world = (w', r)
    /\ (forall s w'' r',
          mutate (MarkDone 1) sample_request 7 (mkEnv 200 s) sample_world = (w'', r') ->
          r' = r /\ db w'' = db w' /\ redis w'' = redis w')
    /\ outbox w' = [].
Proof.
  pose (e := mkEnv 200 refused).
  destruct (mutate (MarkDone 1) sample_request 7 e sample_world) as [w' r] eqn:Hm.
  destruct (notification_is_best_effort (MarkDone 1) sample_request 7 e
              sample_world w' r Hm) as (_ & Hsame & _).
  exists w', r. split; [exact Hm |]. split; [exact Hsame |].
  vm_compute in Hm. by injection Hm as <- <-.
Defined.

(** C1, failing input: user 1 deletes task 2, which user 8 owns.  The
    table is not changed, and the route answers 204 where marking the same
    task done answers 404 "Task not found". *)
Theorem delete_task_of_other_user_answers_204 :
  let request := with_sid "s1" in
  let w := mkWorld (db sample_world) {["sid:s1" := Redis.mkEntry "1" None]} [] 0%nat in
  get_user_id request (redis w) = Return 1
  /\ DELETE_api_tasks 2 request w = (w, Reply 204 tt)
  /\ PATCH_api_tasks_done 2 request (mkEnv 200 Reference.no_faults) w
     = (w, Reject 404 "Task not found").
Proof. repeat split; vm_compute; reflexivity. Qed.

(** C2, failing input: user 7 deletes task 99, which does not exist.  No
    row matches, yet the cached listing of user 7 is dropped; marking
    task 99 done raises and leaves the entry in place. *)
Theorem delete_task_without_match_drops_cache :
  delete_rows 99 7 (db sample_world) = (db sample_world, 0%nat)
  /\ Redis.get "tasks:7" (redis sample_world) = Some "[stale]"
  /\ snd (delete_task 99 7 sample_world) = Return tt
  /\ Redis.get "tasks:7" (redis (fst (delete_task 99 7 sample_world))) = None
  /\ mark_done 99 sample_request 7 (mkEnv 200 Reference.no_faults) sample_world
     = (sample_world, Raise (HTTPException 404 "Task not found")).
Proof. repeat split; vm_compute; reflexivity. Qed.


End TaskFacts.

(** ** Registration, login and tokens *)

Module UserFacts.

Import UserService.

Section Facts.
Context `{Crypto}.

(** The claims signed at registration and login. *)
Lemma create_access_token_sub uid now :
  create_access_token {["sub" := uid]}
    (Some (timedelta_minutes ACCESS_TOKEN_EXPIRE_MINUTES)) now
  = jwt_encode (<["exp" := now + 30 * 60]> {["sub" := uid]}) SECRET_KEY ALGORITHM.
Proof. reflexivity. Qed.

Lemma find_None_Forall {A} (f : A -> bool) (l : list A) :
  find f l = None <-> Forall (fun x => f x = false) l.
Proof.
  induction l as [| x l IH]; simpl; [by split |].
  destruct (f x) eqn:Hx; split.
  - discriminate.
  - intros Hall. apply Forall_cons_1 in Hall as [? _]. congruence.
  - intros. constructor; [done | by apply IH].
  - intros Hall. apply Forall_cons_1 in Hall as [_ ?]. by apply IH.
Qed.

Lemma register_conflict user now d r :
  r ∈ rows d -> email r = uc_email user \/ username r = uc_username user ->
  register user now d
  = (d, Raise (HTTPException 400 "Email or username already registered")).
Proof.
  intros Hin Hdup. unfold register.
  destruct (find _ (rows d)) as [r' |] eqn:Hf; [done |].
  apply find_None_Forall in Hf. rewrite Forall_forall in Hf.
  specialize (Hf r Hin). simpl in Hf. apply orb_false_elim in Hf as [H1 H2].
  apply bool_decide_eq_false in H1. apply bool_decide_eq_false in H2. tauto.
Qed.

Lemma register_fresh user now d :
  Forall (fun r => email r <> uc_email user /\ username r <> uc_username user)
    (rows d) ->
  register user now d
  = (mkUsers (rows d ++ [mkUserRow (id_seq d) (uc_username user) (uc_email user)
                           (get_password_hash (uc_password user)) now])
             (id_seq d + 1),
     Return (mkTokenOut
               (jwt_encode (<["exp" := now + 30 * 60]> {["sub" := id_seq d]})
                  SECRET_KEY ALGORITHM)
               "bearer")).
Proof.
  intros Hfresh. unfold register.
  destruct (find _ (rows d)) as [r' |] eqn:Hf; [| reflexivity].
  apply find_some in Hf as [Hin Hdup].
  rewrite Forall_forall in Hfresh.
  apply list_elem_of_In in Hin. destruct (Hfresh r' Hin) as [H1 H2].
  apply orb_true_iff in Hdup as [Hd | Hd]; apply bool_decide_eq_true in Hd; tauto.
Qed.

(** C7, amended: when a row already carries the email or the username,
    registration is rejected with status 400, the table is left as it
    was and no token is produced; otherwise one row is appended, keyed by
    the next value of the sequence, and the answer has status 200 and
    carries a bearer token whose subject is that key. *)
Theorem register_conflict_or_created user now d :
  (forall r, r ∈ rows d ->
     email r = uc_email user \/ username r = uc_username user ->
     handle (PostRegister user) now d
     = (d, Reject 400 "Email or username already registered"))
  /\ (Forall (fun r => email r <> uc_email user /\ username r <> uc_username user)
        (rows d) ->
      handle (PostRegister user) now d
      = (mkUsers (rows d ++ [mkUserRow (id_seq d) (uc_username user) (uc_email user)
                               (get_password_hash (uc_password user)) now])
                 (id_seq d + 1),
         Reply 200
           (TokenBody
              (mkTokenOut
                 (jwt_encode (<["exp" := now + 30 * 60]> {["sub" := id_seq d]})
                    SECRET_KEY ALGORITHM)
                 "bearer")))).
Proof.
  split.
  - intros r Hin Hdup. unfold handle. by rewrite (register_conflict user now d r).
  - intros Hfresh. unfold handle. by rewrite register_fresh.
Qed.

(** *** Rows are never removed *)

Lemma handle_rows_grow c t d :
  exists extra, rows (fst (handle c t d)) = rows d ++ extra.
Proof.
  destruct c as [user | user | cr | cr | cr]; simpl;
    try (exists []; by rewrite app_nil_r).
  - unfold register. destruct (find _ (rows d)); simpl.
    + exists []. by rewrite app_nil_r.
    + eexists. reflexivity.
  - unfold login. destruct (find _ (rows d)) as [u |]; simpl.
    + destruct (negb _); simpl; exists []; by rewrite app_nil_r.
    + exists []. by rewrite app_nil_r.
Qed.

Lemma serve_rows_grow calls d :
  exists extra, rows (serve calls d) = rows d ++ extra.
Proof.
  revert d. induction calls as [| [c t] calls IH]; intros d; simpl.
  - exists []. by rewrite app_nil_r.
  - destruct (IH (fst (handle c t d))) as [x2 H2].
    destruct (handle_rows_grow c t d) as [x1 H1].
    exists (x1 ++ x2). by rewrite H2, H1, app_assoc.
Qed.

(** A token that [register] or [login] has just returned. *)
Lemma minted_token c now d d' s t :
  handle c now d = (d', Reply s (TokenBody t)) ->
  exists uid,
    access_token t
    = jwt_encode (<["exp" := now + 30 * 60]> {["sub" := uid]}) SECRET_KEY ALGORITHM
    /\ exists u, u ∈ rows d' /\ id u = uid.
Proof.
  destruct c as [user | user | cr | cr | cr]; simpl.
  - unfold register. destruct (find _ (rows d)); simpl; [discriminate |].
    intros [= <- _ <-]. exists (id_seq d). split; [reflexivity |].
    eexists. split; [apply elem_of_app; right; apply list_elem_of_singleton; done |].
    reflexivity.
  - unfold login. destruct (find _ (rows d)) as [u |] eqn:Hf; simpl; [| discriminate].
    destruct (negb _); simpl; [discriminate |].
    intros [= <- _ <-]. exists (id u). split; [reflexivity |].
    apply find_some in Hf as [Hin _]. exists u. by rewrite list_elem_of_In.
  - destruct (get_current_user cr now d) as [u | [] ]; simpl; discriminate.
  - destruct (get_current_user cr now d) as [u | [] ]; simpl; discriminate.
  - destruct (get_current_user cr now d) as [u | [] ]; simpl; discriminate.
Qed.

End Facts.

(** *** The handlers on concrete tables *)

#[local] Existing Instance Reference.plain_crypto.

Import Reference.

#[local] Instance plain_crypto_jose : JoseLaws.
Proof.
  constructor. intros claims key alg key' algs t n Hsub. simpl.
  rewrite Hsub. by rewrite andb_false_r.
Qed.

Lemma register_conflict_or_created_witness :
  fst (handle (PostRegister alice) 1000 no_users)
  = mkUsers [mkUserRow 1 "alice" "a@x.com" "$p1" 1000] 2
  /\ handle (PostRegister alice) 2000 (fst (handle (PostRegister alice) 1000 no_users))
     = (fst (handle (PostRegister alice) 1000 no_users),
        Reject 400 "Email or username already registered").
Proof.
  destruct (register_conflict_or_created alice 1000 no_users) as [_ Hnew].
  rewrite Hnew by constructor. split; [reflexivity |].
  destruct (register_conflict_or_created alice 2000
              (mkUsers [mkUserRow 1 "alice" "a@x.com" "$p1" 1000] 2)) as [Hdup _].
  apply (Hdup (mkUserRow 1 "alice" "a@x.com" "$p1" 1000)).
  - simpl. set_solver.
  - left. reflexivity.
Defined.

(** C7 as stated fails: registering alice in an empty table is answered
    with status 200, not 201. *)
Lemma register_answers_200 :
  snd (handle (PostRegister alice) 1000 no_users)
  = Reply 200
      (TokenBody
         (mkTokenOut
            ({["sub" := 1; "exp" := 2800]},
             "your-secret-key-change-in-production", "HS256")
            "bearer"))
  /\ response_status (snd (handle (PostRegister alice) 1000 no_users)) <> 201.
Proof.
  assert (Hr : snd (handle (PostRegister alice) 1000 no_users)
               = Reply 200
                   (TokenBody
                      (mkTokenOut
                         ({["sub" := 1; "exp" := 2800]},
                          "your-secret-key-change-in-production", "HS256")
                         "bearer"))).
  { vm_compute. reflexivity. }
  split; [exact Hr |]. rewrite Hr. simpl. lia.
Qed.

(** C6, failing input: alice registers at time 1000 and presents the
    token one second later; she then logs in at time 1100 and presents that
    token one second later.  Both tokens carry the subject 1, a number, and
    an expiry 30 minutes after issue; the verifier refuses both and the
    validation route answers 401, long before the expiry. *)
Theorem minted_token_is_rejected :
  let d := fst (handle (PostRegister alice) 1000 no_users) in
  let key := "your-secret-key-change-in-production" in
  snd (handle (PostRegister alice) 1000 no_users)
  = Reply 200
      (TokenBody (mkTokenOut ({["sub" := 1; "exp" := 2800]}, key, "HS256") "bearer"))
  /\ get_current_user ({["sub" := 1; "exp" := 2800]}, key, "HS256") 1001 d
     = Raise (HTTPException 401 "Could not validate credentials")
  /\ handle (GetValidate ({["sub" := 1; "exp" := 2800]}, key, "HS256")) 1001 d
     = (d, Reject 401 "Could not validate credentials")
  /\ handle (PostLogin (mkUserLogin "a@x.com" "p1")) 1100 d
     = (d, Reply 200
             (TokenBody
                (mkTokenOut ({["sub" := 1; "exp" := 2900]}, key, "HS256") "bearer")))
  /\ get_current_user ({["sub" := 1; "exp" := 2900]}, key, "HS256") 1101 d
     = Raise (HTTPException 401 "Could not validate credentials").
Proof. repeat split; vm_compute; reflexivity. Qed.

(** The scenario of registration followed by two logins. *)
Example register_then_login :
  let d := fst (handle (PostRegister alice) 1000 no_users) in
  snd (handle (PostLogin (mkUserLogin "a@x.com" "wrong")) 1100 d)
  = Reject 401 "Incorrect email or password"
  /\ response_status (snd (handle (PostLogin (mkUserLogin "a@x.com" "p1")) 1200 d)) = 200.
Proof. split; vm_compute; reflexivity. Qed.


End UserFacts.


(** ** Further properties of the task service *)

Module TaskExtra.

Import TaskService Invariants.

Section Facts.
Context `{Settings} `{JsonLib} `{Py.Builtins}.

(** *** Cache keys *)

Lemma cache_key_tasks_inj U V : cache_key_tasks U = cache_key_tasks V -> U = V.
Proof.
  unfold cache_key_tasks, Py.str. simpl. intros [= Heq].
  change (pretty U = pretty V) in Heq. by apply (inj pretty) in Heq.
Qed.

Lemma cache_key_not_session U sid : cache_key_tasks U <> "sid:" +:+ sid.
Proof. unfold cache_key_tasks. simpl. discriminate. Qed.

Lemma mutate_redis m request U e w :
  redis (fst (mutate m request U e w)) = redis w
  \/ redis (fst (mutate m request U e w)) = Redis.delete (cache_key_tasks U) (redis w).
Proof.
  destruct m as [data | tid | tid | tid].
  4: { right. reflexivity. }
  all: match goal with
       | |- context [mutate ?m _ _ _ _] =>
           pose proof (TaskFacts.checked_mutation_cache m request U e w
                         ltac:(intros ?; discriminate)) as Hc;
           destruct (mutate m request U e w) as [w' [row | ex]]; simpl in *;
           [right; apply Hc | left; by rewrite Hc]
       end.
Qed.

(** Without a resolvable session none of the five routes does anything: the
    world is returned as it was and the answer is the 401 of
    [get_user_id]. *)
Theorem unauthenticated_request_has_no_effect request w ex :
  get_user_id request (redis w) = Raise ex ->
  exists d,
    ex = HTTPException 401 d
    /\ GET_api_tasks request w = (w, Reject 401 d)
    /\ (forall data e, POST_api_tasks data request e w = (w, Reject 401 d))
    /\ (forall tid e, PATCH_api_tasks_done tid request e w = (w, Reject 401 d))
    /\ (forall tid e, PATCH_api_tasks_reactivate tid request e w = (w, Reject 401 d))
    /\ (forall tid, DELETE_api_tasks tid request w = (w, Reject 401 d)).
Proof.
  intros Hex.
  pose proof (SessionFacts.get_user_id_sound request (redis w)) as Hs.
  rewrite Hex in Hs. destruct Hs as [d ->]. exists d.
  unfold GET_api_tasks, POST_api_tasks, PATCH_api_tasks_done,
    PATCH_api_tasks_reactivate, DELETE_api_tasks, route.
  rewrite Hex. simpl. repeat split; reflexivity.
Qed.

(** A missing or empty session cookie is rejected with "No session",
    whatever the store holds. *)
Theorem missing_cookie_is_no_session request r :
  cookies request !! "sid" = None \/ cookies request !! "sid" = Some "" ->
  get_user_id request r = Raise (HTTPException 401 "No session").
Proof.
  intros Hc. apply SessionFacts.get_user_id_no_cookie.
  by destruct Hc as [-> | ->].
Qed.

(** A mutation requested by [U] leaves every Redis key other than [U]'s
    cache key as it was: the cached listings of the other users and all
    session entries stay. *)
Theorem mutation_keeps_other_keys m request U e w :
  (forall k, k <> cache_key_tasks U ->
     redis (fst (mutate m request U e w)) !! k = redis w !! k)
  /\ (forall V, V <> U ->
        Redis.get (cache_key_tasks V) (redis (fst (mutate m request U e w)))
        = Redis.get (cache_key_tasks V) (redis w))
  /\ (forall sid,
        Redis.get ("sid:" +:+ sid) (redis (fst (mutate m request U e w)))
        = Redis.get ("sid:" +:+ sid) (redis w)).
Proof.
  assert (Hk : forall k, k <> cache_key_tasks U ->
                 redis (fst (mutate m request U e w)) !! k = redis w !! k).
  { intros k Hne. destruct (mutate_redis m request U e w) as [-> | ->]; [done |].
    unfold Redis.delete. by rewrite lookup_delete_ne. }
  split; [exact Hk |]. split.
  - intros V HV. unfold Redis.get. rewrite Hk; [done |].
    intros Heq. by apply cache_key_tasks_inj in Heq.
  - intros sid. unfold Redis.get. rewrite Hk; [done |].
    intros Heq. symmetry in Heq. by apply cache_key_not_session in Heq.
Qed.

(** *** Listing *)

(** [list_tasks] reads: the table, the outbox and every Redis key other
    than the caller's cache key are left as they were; a listing read from
    the table holds exactly the caller's rows. *)
Theorem list_tasks_reads_own_rows U w :
  db (fst (list_tasks U w)) = db w
  /\ outbox (fst (list_tasks U w)) = outbox w
  /\ smtp_sessions (fst (list_tasks U w)) = smtp_sessions w
  /\ (forall k, k <> cache_key_tasks U ->
        redis (fst (list_tasks U w)) !! k = redis w !! k)
  /\ (forall l, snd (list_tasks U w) = Return (Rows l) ->
        forall t, t ∈ l <-> t ∈ rows (db w) /\ user_id t = U).
Proof.
  unfold list_tasks.
  destruct (negb (Py.not_ (Redis.get (cache_key_tasks U) (redis w)))) eqn:Hhit.
  - destruct (json_loads _); simpl;
      refine (conj eq_refl (conj eq_refl (conj eq_refl (conj _ _))));
      (done || (intros l Hl; discriminate)).
  - simpl. refine (conj eq_refl (conj eq_refl (conj eq_refl (conj _ _)))).
    + intros k Hne. unfold Redis.setex. by rewrite lookup_insert_ne.
    + intros l [= <-] t.
      rewrite (proj1 (TaskFacts.select_tasks_spec U (db w))).
      rewrite list_elem_of_filter. tauto.
Qed.

(** *** The table after a mutation *)

Lemma update_status_fst_no_match st tid U now d :
  List.find (matches tid U) (rows d) = None ->
  fst (update_status st tid U now d) = d.
Proof.
  intros Hf. apply TaskFacts.find_matches_None in Hf.
  by rewrite TaskFacts.update_status_no_match.
Qed.

Lemma mutate_db m request U e w :
  db (fst (mutate m request U e w)) = applied m U (now e) (db w).
Proof.
  destruct m as [data | tid | tid | tid]; unfold mutate, applied.
  - rewrite TaskFacts.create_task_unfold. cbv beta iota zeta. cbn [fst].
    by rewrite (proj1 (TaskFacts.try_except_pass_store _ _ _ _ _)).
  - rewrite TaskFacts.mark_done_unfold.
    destruct (List.find (matches tid U) (rows (db w))) eqn:Hf;
      cbv beta iota zeta; cbn [fst].
    + by rewrite (proj1 (TaskFacts.try_except_pass_store _ _ _ _ _)).
    + by rewrite update_status_fst_no_match.
  - rewrite TaskFacts.reactivate_unfold.
    destruct (List.find (matches tid U) (rows (db w))) eqn:Hf;
      cbv beta iota zeta; cbn [fst].
    + by rewrite (proj1 (TaskFacts.try_except_pass_store _ _ _ _ _)).
    + by rewrite update_status_fst_no_match.
  - reflexivity.
Qed.

Lemma matches_set_status tid U st now t :
  matches tid U (set_status st now t) = matches tid U t.
Proof. reflexivity. Qed.

Lemma find_update_status st tid U now d :
  List.find (matches tid U) (rows (fst (update_status st tid U now d)))
  = set_status st now <$> List.find (matches tid U) (rows d).
Proof.
  unfold update_status. simpl. induction (rows d) as [| t l IH]; simpl; [done |].
  destruct (matches tid U t) eqn:Hm; simpl.
  - by rewrite matches_set_status, Hm.
  - by rewrite Hm.
Qed.

Lemma update_status_twice st1 st2 tid U n1 n2 d :
  fst (update_status st2 tid U n2 (fst (update_status st1 tid U n1 d)))
  = fst (update_status st2 tid U n2 d).
Proof.
  unfold update_status. simpl. f_equal. rewrite map_map.
  apply map_ext. intros t. destruct (matches tid U t) eqn:Hm.
  - by rewrite matches_set_status, Hm.
  - by rewrite Hm.
Qed.

Lemma filter_twice {A} (f : A -> bool) (l : list A) :
  List.filter f (List.filter f l) = List.filter f l.
Proof.
  induction l as [| x l IH]; simpl; [done |].
  destruct (f x) eqn:Hx; simpl; [| done]. by rewrite Hx, IH.
Qed.

Lemma delete_rows_elem tid U d t :
  t ∈ rows (fst (delete_rows tid U d))
  <-> t ∈ rows d /\ ~ (id t = tid /\ user_id t = U).
Proof.
  unfold delete_rows. simpl. rewrite !list_elem_of_In, filter_In.
  rewrite negb_true_iff, <- TaskFacts.matches_true.
  destruct (matches tid U t); intuition congruence.
Qed.

(** The table, the cache and the result of the two status changes, read
    off the first row that the statement matches. *)
Lemma mark_done_parts tid request U e w :
  db (fst (mark_done tid request U e w))
  = fst (update_status "done" tid U (now e) (db w))
  /\ redis (fst (mark_done tid request U e w))
     = match List.find (matches tid U) (rows (db w)) with
       | Some _ => Redis.delete (cache_key_tasks U) (redis w)
       | None => redis w
       end
  /\ snd (mark_done tid request U e w)
     = match List.find (matches tid U) (rows (db w)) with
       | Some t => Return (set_status "done" (now e) t)
       | None => Raise (HTTPException 404 "Task not found")
       end.
Proof.
  split.
  { pose proof (mutate_db (MarkDone tid) request U e w) as Hm.
    unfold mutate, applied in Hm. by destruct (mark_done tid request U e w). }
  rewrite TaskFacts.mark_done_unfold.
  destruct (List.find (matches tid U) (rows (db w))); [| done].
  cbv beta iota zeta. cbn [fst snd].
  by rewrite (proj2 (TaskFacts.try_except_pass_store _ _ _ _ _)).
Qed.

Lemma reactivate_parts tid request U e w :
  db (fst (reactivate tid request U e w))
  = fst (update_status "open" tid U (now e) (db w))
  /\ redis (fst (reactivate tid request U e w))
     = match List.find (matches tid U) (rows (db w)) with
       | Some _ => Redis.delete (cache_key_tasks U) (redis w)
       | None => redis w
       end
  /\ snd (reactivate tid request U e w)
     = match List.find (matches tid U) (rows (db w)) with
       | Some t => Return (set_status "open" (now e) t)
       | None => Raise (HTTPException 404 "Task not found")
       end.
Proof.
  split.
  { pose proof (mutate_db (Reactivate tid) request U e w) as Hm.
    unfold mutate, applied in Hm. by destruct (reactivate tid request U e w). }
  rewrite TaskFacts.reactivate_unfold.
  destruct (List.find (matches tid U) (rows (db w))); [| done].
  cbv beta iota zeta. cbn [fst snd].
  by rewrite (proj2 (TaskFacts.try_except_pass_store _ _ _ _ _)).
Qed.

(** *** Deleting *)

(** [delete_task] removes exactly the rows carrying the given id and owned
    by the caller: every other row, in particular every row of another
    user, stays; the sequence is kept and no notification is sent. *)
Theorem delete_task_removes_own_rows_only tid U w :
  (forall t, t ∈ rows (db (fst (delete_task tid U w)))
             <-> t ∈ rows (db w) /\ ~ (id t = tid /\ user_id t = U))
  /\ id_seq (db (fst (delete_task tid U w))) = id_seq (db w)
  /\ outbox (fst (delete_task tid U w)) = outbox w
  /\ smtp_sessions (fst (delete_task tid U w)) = smtp_sessions w.
Proof.
  refine (conj _ (conj eq_refl (conj eq_refl eq_refl))).
  intros t. apply delete_rows_elem.
Qed.

(** Deleting the same task a second time changes nothing more. *)
Theorem delete_task_idempotent tid U w :
  fst (delete_task tid U (fst (delete_task tid U w))) = fst (delete_task tid U w).
Proof.
  rewrite !TaskFacts.delete_task_always_returns. simpl.
  unfold invalidate_tasks_cache, with_redis, with_db, Redis.delete. simpl.
  rewrite filter_twice, delete_delete_eq. reflexivity.
Qed.

(** Once a task is deleted, marking it done or reactivating it is answered
    404 "Task not found" and changes nothing. *)
Theorem deleted_task_is_not_found tid U w request e :
  mark_done tid request U e (fst (delete_task tid U w))
  = (fst (delete_task tid U w), Raise (HTTPException 404 "Task not found"))
  /\ reactivate tid request U e (fst (delete_task tid U w))
     = (fst (delete_task tid U w), Raise (HTTPException 404 "Task not found")).
Proof.
  assert (Hgone : Forall (fun t => id t = tid -> user_id t <> U)
                    (rows (db (fst (delete_task tid U w))))).
  { apply Forall_forall. intros t Ht Hid Hu.
    change (db (fst (delete_task tid U w))) with (fst (delete_rows tid U (db w))) in Ht.
    apply delete_rows_elem in Ht as [_ Hn]. tauto. }
  split.
  - by apply TaskFacts.mark_done_not_found.
  - by apply TaskFacts.reactivate_not_found.
Qed.

(** *** Status changes compose *)

(** The last status write wins: reactivating after marking done gives the
    table, the cache and the result of reactivating alone, and marking done
    after reactivating those of marking done alone. *)
Theorem last_status_write_wins tid r1 r2 U e1 e2 w :
  (db (fst (reactivate tid r2 U e2 (fst (mark_done tid r1 U e1 w))))
   = db (fst (reactivate tid r2 U e2 w))
   /\ redis (fst (reactivate tid r2 U e2 (fst (mark_done tid r1 U e1 w))))
      = redis (fst (reactivate tid r2 U e2 w))
   /\ snd (reactivate tid r2 U e2 (fst (mark_done tid r1 U e1 w)))
      = snd (reactivate tid r2 U e2 w))
  /\ (db (fst (mark_done tid r2 U e2 (fst (reactivate tid r1 U e1 w))))
      = db (fst (mark_done tid r2 U e2 w))
      /\ redis (fst (mark_done tid r2 U e2 (fst (reactivate tid r1 U e1 w))))
         = redis (fst (mark_done tid r2 U e2 w))
      /\ snd (mark_done tid r2 U e2 (fst (reactivate tid r1 U e1 w)))
         = snd (mark_done tid r2 U e2 w)).
Proof.
  pose proof (mark_done_parts tid r1 U e1 w) as (Hd1 & Hr1 & _).
  pose proof (reactivate_parts tid r1 U e1 w) as (Hd2 & Hr2 & _).
  pose proof (reactivate_parts tid r2 U e2 (fst (mark_done tid r1 U e1 w)))
    as (Hda & Hra & Hsa).
  pose proof (mark_done_parts tid r2 U e2 (fst (reactivate tid r1 U e1 w)))
    as (Hdb & Hrb & Hsb).
  pose proof (reactivate_parts tid r2 U e2 w) as (Hd3 & Hr3 & Hs3).
  pose proof (mark_done_parts tid r2 U e2 w) as (Hd4 & Hr4 & Hs4).
  rewrite Hda, Hra, Hsa, Hdb, Hrb, Hsb, Hd3, Hr3, Hs3, Hd4, Hr4, Hs4.
  rewrite Hd1, Hr1, Hd2, Hr2, !find_update_status, !update_status_twice.
  destruct (List.find (matches tid U) (rows (db w))) as [t |]; simpl;
    unfold Redis.delete; rewrite ?delete_delete_eq; done.
Qed.

(** *** The primary key is kept *)

Lemma map_id_update st tid U now (l : list Task) :
  map id (map (fun t => if matches tid U t then set_status st now t else t) l)
  = map id l.
Proof.
  rewrite map_map. apply map_ext. intros t. by destruct (matches tid U t).
Qed.

Lemma NoDup_map_id_filter (f : Task -> bool) (l : list Task) :
  NoDup (map id l) -> NoDup (map id (List.filter f l)).
Proof.
  induction l as [| t l IH]; simpl; [done |].
  rewrite NoDup_cons. intros [Hnin Hnd].
  destruct (f t); simpl; [| by apply IH].
  apply NoDup_cons. split; [| by apply IH].
  intros Hin. apply Hnin.
  apply list_elem_of_In, in_map_iff in Hin as (t' & Hid & Hin).
  apply filter_In in Hin as [Hin _].
  apply list_elem_of_In, in_map_iff. eauto.
Qed.

Lemma applied_keyed m U now d : keyed d -> keyed (applied m U now d).
Proof.
  unfold keyed, wf. intros [Hwf Hnd].
  destruct m as [data | tid | tid | tid]; simpl.
  - split.
    + apply Forall_app. split.
      * eapply Forall_impl; [exact Hwf |]. simpl. intros t Ht. lia.
      * constructor; [simpl; lia | constructor].
    + rewrite map_app. simpl. apply NoDup_app. split; [done |].
      split; [| apply NoDup_singleton].
      intros k Hk Hk'. apply list_elem_of_singleton in Hk'. subst k.
      apply list_elem_of_In, in_map_iff in Hk as (t & Hid & Hin).
      rewrite Forall_forall in Hwf. apply list_elem_of_In in Hin.
      specialize (Hwf t Hin). simpl in Hwf. lia.
  - rewrite map_id_update. split; [| done].
    apply Forall_forall. intros t' Hin.
    apply list_elem_of_In, in_map_iff in Hin as (t & <- & Hin).
    rewrite Forall_forall in Hwf. apply list_elem_of_In in Hin.
    specialize (Hwf t Hin). by destruct (matches tid U t).
  - rewrite map_id_update. split; [| done].
    apply Forall_forall. intros t' Hin.
    apply list_elem_of_In, in_map_iff in Hin as (t & <- & Hin).
    rewrite Forall_forall in Hwf. apply list_elem_of_In in Hin.
    specialize (Hwf t Hin). by destruct (matches tid U t).
  - split; [| by apply NoDup_map_id_filter].
    apply Forall_forall. intros t Hin.
    apply list_elem_of_In, filter_In in Hin as [Hin _].
    rewrite Forall_forall in Hwf. apply Hwf. by apply list_elem_of_In.
Qed.

Lemma step_db ev w :
  db (step ev w) = db w
  \/ exists m U now, db (step ev w) = applied m U now (db w).
Proof.
  destruct ev as [U request [| m] e | dt]; simpl.
  - left. unfold list_tasks.
    destruct (negb _); [destruct (json_loads _) |]; done.
  - right. exists m, U, (now e). apply mutate_db.
  - by left.
Qed.

(** Whatever requests are served, the keys of the table stay pairwise
    distinct and below the next value of the sequence. *)
Theorem primary_key_is_kept trace w :
  keyed (db w) -> keyed (db (run trace w)).
Proof.
  revert w. induction trace as [| ev trace IH]; intros w Hk; simpl; [done |].
  apply IH. destruct (step_db ev w) as [-> | (m & U & now & ->)]; [done |].
  by apply applied_keyed.
Qed.

(** *** The rows of the other users *)

Lemma applied_other_user m U V now d :
  V <> U ->
  filter (fun t => user_id t = V) (rows (applied m U now d))
  = filter (fun t => user_id t = V) (rows d).
Proof.
  intros HV. destruct m as [data | tid | tid | tid]; simpl.
  - rewrite filter_app, filter_cons_False, filter_nil, app_nil_r by (simpl; congruence).
    done.
  - induction (rows d) as [| t l IH]; simpl; [done |].
    rewrite !filter_cons, IH. destruct (matches tid U t) eqn:Hm; [| done].
    apply TaskFacts.matches_true in Hm as [_ Hu]. simpl.
    by rewrite !decide_False by congruence.
  - induction (rows d) as [| t l IH]; simpl; [done |].
    rewrite !filter_cons, IH. destruct (matches tid U t) eqn:Hm; [| done].
    apply TaskFacts.matches_true in Hm as [_ Hu]. simpl.
    by rewrite !decide_False by congruence.
  - induction (rows d) as [| t l IH]; simpl; [done |].
    destruct (matches tid U t) eqn:Hm; simpl.
    + apply TaskFacts.matches_true in Hm as [_ Hu].
      by rewrite IH, filter_cons_False by congruence.
    + by rewrite !filter_cons, IH.
Qed.

Lemma select_tasks_other_user m U V now d :
  V <> U -> select_tasks V (applied m U now d) = select_tasks V d.
Proof. intros HV. unfold select_tasks. by rewrite applied_other_user. Qed.

(** A mutation requested by [U] leaves what every other user lists from the
    table as it was. *)
Theorem mutation_keeps_other_users_listing m request U e w V :
  V <> U ->
  select_tasks V (db (fst (mutate m request U e w))) = select_tasks V (db w)
  /\ forall t, user_id t = V ->
       (t ∈ rows (db (fst (mutate m request U e w))) <-> t ∈ rows (db w)).
Proof.
  intros HV. rewrite mutate_db. split; [by apply select_tasks_other_user |].
  intros t Ht.
  pose proof (applied_other_user m U V (now e) (db w) HV) as Hf.
  split; intros Hin.
  - assert (Hin' : t ∈ filter (fun t => user_id t = V)
                        (rows (applied m U (now e) (db w))))
      by by apply list_elem_of_filter.
    rewrite Hf in Hin'. by apply list_elem_of_filter in Hin' as [_ ?].
  - assert (Hin' : t ∈ filter (fun t => user_id t = V) (rows (db w)))
      by by apply list_elem_of_filter.
    rewrite <- Hf in Hin'. by apply list_elem_of_filter in Hin' as [_ ?].
Qed.

(** *** The cache never lags behind the table *)

Lemma mutate_unchanged_or_invalidated m request U e w :
  fst (mutate m request U e w) = w
  \/ redis (fst (mutate m request U e w)) = Redis.delete (cache_key_tasks U) (redis w).
Proof.
  destruct m as [data | tid | tid | tid].
  4: { right. reflexivity. }
  all: match goal with
       | |- context [mutate ?m _ _ _ _] =>
           pose proof (TaskFacts.checked_mutation_cache m request U e w
                         ltac:(intros ?; discriminate)) as Hc;
           destruct (mutate m request U e w) as [w' [row | ex]]; simpl in *;
           [right; apply Hc | by left]
       end.
Qed.

Lemma elapse_get_Some k dt (r : Redis.store) c :
  Redis.get k (Redis.elapse dt r) = Some c -> Redis.get k r = Some c.
Proof.
  unfold Redis.get, Redis.elapse. rewrite lookup_omap.
  destruct (r !! k) as [en |]; simpl; [| done].
  unfold Redis.age. destruct (Redis.ttl en) as [t |]; [| done].
  by destruct (t <=? dt).
Qed.

Lemma step_coherent ev w : coherent w -> coherent (step ev w).
Proof.
  intros Hco. destruct ev as [U request [| m] e | dt]; simpl.
  - unfold list_tasks.
    destruct (negb (Py.not_ (Redis.get (cache_key_tasks U) (redis w)))).
    + by destruct (json_loads _).
    + simpl. intros V c. simpl. unfold Redis.get, Redis.setex.
      destruct (decide (cache_key_tasks U = cache_key_tasks V)) as [Heq | Hne].
      * rewrite Heq, lookup_insert_eq. simpl. intros [= <-].
        apply cache_key_tasks_inj in Heq. by subst V.
      * rewrite lookup_insert_ne by done. apply Hco.
  - intros V c Hget. destruct (decide (V = U)) as [-> | HV].
    + destruct (mutate_unchanged_or_invalidated m request U e w) as [Hsame | Hdel].
      * rewrite Hsame in *. by apply Hco.
      * rewrite Hdel, TaskFacts.get_delete in Hget. discriminate.
    + rewrite mutate_db, select_tasks_other_user by done. apply Hco.
      destruct (mutate_unchanged_or_invalidated m request U e w) as [Hsame | Hdel].
      * by rewrite Hsame in Hget.
      * rewrite Hdel in Hget. unfold Redis.get, Redis.delete in *.
        rewrite lookup_delete_ne in Hget; [done |].
        intros Heq. by apply cache_key_tasks_inj in Heq.
  - intros V c Hget. simpl in *. apply Hco. by eapply elapse_get_Some.
Qed.

Lemma coherent_list U w :
  coherent w ->
  snd (list_tasks U w) = Return (Rows (select_tasks U (db w)))
  \/ snd (list_tasks U w)
     = match json_loads (json_dumps (select_tasks U (db w))) with
       | Some j => Return (Cached j)
       | None => Raise JSONDecodeError
       end.
Proof.
  intros Hco. unfold list_tasks.
  destruct (Redis.get (cache_key_tasks U) (redis w)) as [c |] eqn:Hget; simpl;
    [| by left].
  destruct (Py.truthy c); simpl; [| by left].
  right. rewrite (Hco U c Hget). by destruct (json_loads _).
Qed.

(** Started from a world whose cached listings agree with the table, and
    whatever requests are served and however much time passes, every cached
    listing is the serialisation of the rows that the table holds now; so a
    listing is either those rows or the decoding of their serialisation. *)
Theorem cache_stays_coherent trace w :
  coherent w ->
  coherent (run trace w)
  /\ forall U,
       snd (list_tasks U (run trace w))
       = Return (Rows (select_tasks U (db (run trace w))))
       \/ snd (list_tasks U (run trace w))
          = match json_loads (json_dumps (select_tasks U (db (run trace w)))) with
            | Some j => Return (Cached j)
            | None => Raise JSONDecodeError
            end.
Proof.
  intros Hco.
  assert (Hrun : coherent (run trace w)).
  { revert w Hco. induction trace as [| ev trace IH]; intros w Hco; simpl; [done |].
    apply IH. by apply step_coherent. }
  split; [exact Hrun |]. intros U. by apply coherent_list.
Qed.

(** *** Create, mark done, list *)

Lemma find_matches_fresh U (l : list Task) row :
  Forall (fun t => id t <> id row) l -> user_id row = U ->
  List.find (matches (id row) U) (l ++ [row]) = Some row.
Proof.
  intros Hl Hu. induction Hl as [| t l Ht _ IH]; simpl.
  - by rewrite (proj2 (TaskFacts.matches_true (id row) U row)).
  - destruct (matches (id row) U t) eqn:Hm; [| done].
    apply TaskFacts.matches_true in Hm as [Hid _]. done.
Qed.

Lemma update_status_fresh st U now (l : list Task) row :
  Forall (fun t => id t <> id row) l -> user_id row = U ->
  map (fun t => if matches (id row) U t then set_status st now t else t) (l ++ [row])
  = l ++ [set_status st now row].
Proof.
  intros Hl Hu. rewrite map_app. simpl.
  rewrite (proj2 (TaskFacts.matches_true (id row) U row)) by done. f_equal.
  induction Hl as [| t l Ht _ IH]; simpl; [done |]. rewrite IH. f_equal.
  destruct (matches (id row) U t) eqn:Hm; [| done].
  apply TaskFacts.matches_true in Hm as [Hid _]. done.
Qed.

(** Creating a task, marking it done and listing, as the same user: the
    listing is read from the table and holds the created task exactly once,
    with status done and the title it was created with. *)
Theorem create_done_list data r1 r2 U e1 e2 w :
  wf (db w) ->
  exists w1 row w2 w3 l,
    create_task data r1 U e1 w = (w1, Return row)
    /\ mark_done (id row) r2 U e2 w1 = (w2, Return (set_status "done" (now e2) row))
    /\ list_tasks U w2 = (w3, Return (Rows l))
    /\ title row = data_title data
    /\ filter (fun t => id t = id row) l = [set_status "done" (now e2) row].
Proof.
  intros Hwf. rewrite TaskFacts.create_task_unfold. cbv zeta.
  set (row := mkTask (id_seq (db w)) U (data_title data) "open" (now e1) (now e1)).
  set (w1 := try_except_pass _).
  assert (Hdb1 : db w1 = mkTasks (rows (db w) ++ [row]) (id_seq (db w) + 1))
    by (unfold w1; by rewrite (proj1 (TaskFacts.try_except_pass_store _ _ _ _ _))).
  assert (Hfresh : Forall (fun t => id t <> id row) (rows (db w))).
  { eapply Forall_impl; [exact Hwf |]. simpl. intros t Ht. lia. }
  pose proof (mark_done_parts (id row) r2 U e2 w1) as (Hd2 & Hr2 & Hs2).
  rewrite Hdb1 in Hd2, Hr2, Hs2. cbn [rows] in Hr2, Hs2.
  rewrite find_matches_fresh in Hr2, Hs2 by done.
  unfold update_status in Hd2. cbn [fst rows id_seq] in Hd2.
  rewrite (update_status_fresh "done" U (now e2) _ row) in Hd2 by done.
  set (md := mark_done (id row) r2 U e2 w1) in *.
  exists w1, row, (fst md). eexists _, _. split; [reflexivity |].
  split; [rewrite <- Hs2; apply surjective_pairing |].
  split.
  { apply TaskFacts.list_tasks_miss. by rewrite Hr2, TaskFacts.get_delete. }
  split; [reflexivity |].
  apply Permutation_singleton_r.
  rewrite (proj1 (TaskFacts.select_tasks_spec U (db (fst md)))), Hd2.
  cbn [rows].
  rewrite filter_app, (filter_cons_True _ (set_status "done" (now e2) row))
    by reflexivity.
  rewrite filter_nil, filter_app,
    (filter_cons_True _ (set_status "done" (now e2) row)) by reflexivity.
  rewrite filter_nil, TaskFacts.fresh_id_not_listed; done.
Qed.

(** *** Delivered notifications *)

Lemma send_email_delivered to_email subject body m w :
  SMTP_HOST <> "" -> to_email <> "" -> accepts m ->
  send_email_if_configured to_email subject body m w
  = (mkWorld (db w) (redis w)
       (outbox w ++ [mkMessage body subject SMTP_FROM to_email])
       (S (smtp_sessions w)),
     Return tt).
Proof.
  intros Hh Ht (Hc & Hs & Hm & Hl). unfold send_email_if_configured.
  rewrite (proj2 (PyFacts.truthy_nonempty SMTP_HOST)) by done.
  rewrite (proj2 (PyFacts.truthy_nonempty to_email)) by done. simpl.
  rewrite Hc, Hs, Hm.
  destruct Hl as [-> | ->]; simpl; [done |]. by rewrite andb_false_r.
Qed.

(** With a mail host configured, a recipient named in the request and a mail
    server that takes the message, each successful create, mark-done and
    reactivate hands over exactly one message, to that recipient, with the
    subject of the operation and the task's title in the body. *)
Theorem notification_is_delivered request U e w addr :
  SMTP_HOST <> "" -> headers request !! "x-user-email" = Some addr -> addr <> "" ->
  accepts (smtp e) ->
  (forall data,
     outbox (fst (create_task data request U e w))
     = outbox w ++ [mkMessage
                      ("<p>Your task '<b>" +:+ data_title data +:+ "</b>' was created.</p>")
                      "Task created" SMTP_FROM addr])
  /\ (forall tid w' row,
        mark_done tid request U e w = (w', Return row) ->
        outbox w'
        = outbox w ++ [mkMessage
                         ("<p>Your task '<b>" +:+ title row +:+ "</b>' was marked done.</p>")
                         "Task completed" SMTP_FROM addr])
  /\ (forall tid w' row,
        reactivate tid request U e w = (w', Return row) ->
        outbox w'
        = outbox w ++ [mkMessage
                         ("<p>Your task '<b>" +:+ title row +:+ "</b>' was reactivated.</p>")
                         "Task reactivated" SMTP_FROM addr]).
Proof.
  intros Hh Ha Hne Hacc.
  assert (Hto : Py.or_empty (resolve_email_from_request request) = addr).
  { unfold resolve_email_from_request. rewrite Ha. simpl.
    by rewrite (proj2 (PyFacts.truthy_nonempty addr)). }
  split; [| split].
  - intros data. rewrite TaskFacts.create_task_unfold. cbv zeta. cbn [fst].
    unfold try_except_pass. rewrite Hto, send_email_delivered by done. done.
  - intros tid w' row. rewrite TaskFacts.mark_done_unfold.
    destruct (List.find _ _); [| discriminate]. cbv zeta. intros [= <- <-].
    unfold try_except_pass. rewrite Hto, send_email_delivered by done. done.
  - intros tid w' row. rewrite TaskFacts.reactivate_unfold.
    destruct (List.find _ _); [| discriminate]. cbv zeta. intros [= <- <-].
    unfold try_except_pass. rewrite Hto, send_email_delivered by done. done.
Qed.

End Facts.

(** *** The properties on sample worlds *)

#[local] Existing Instance Reference.mail_settings.
#[local] Existing Instance Reference.text_json.
#[local] Existing Instance Reference.ascii_builtins.

Import Reference Samples.

#[local] Instance text_json_laws : JsonLaws.
Proof. constructor. intros l. reflexivity. Qed.

Lemma quiet_world_coherent : coherent quiet_world.
Proof.
  intros U c. unfold Redis.get. simpl.
  rewrite lookup_singleton_ne; [discriminate |].
  intros Heq. symmetry in Heq. by apply (cache_key_not_session U "s7") in Heq.
Qed.

Lemma unauthenticated_request_has_no_effect_witness :
  DELETE_api_tasks 1 request_of_8 sample_world
  = (sample_world, Reject 401 "Session expired").
Proof.
  destruct (unauthenticated_request_has_no_effect request_of_8 sample_world
              (HTTPException 401 "Session expired") eq_refl)
    as (d & Hd & _ & _ & _ & _ & Hdel).
  injection Hd as <-. apply Hdel.
Defined.

Lemma missing_cookie_is_no_session_witness :
  get_user_id (mkRequest ∅ ∅) (redis sample_world)
  = Raise (HTTPException 401 "No session")
  /\ get_user_id (with_sid "") (redis sample_world)
     = Raise (HTTPException 401 "No session").
Proof.
  split.
  - apply missing_cookie_is_no_session. left. reflexivity.
  - apply missing_cookie_is_no_session. right. reflexivity.
Defined.

Lemma primary_key_is_kept_witness :
  keyed (db sample_world) /\ keyed (db (run sample_trace sample_world)).
Proof.
  assert (Hk : keyed (db sample_world)).
  { split; [apply TaskFacts.sample_world_wf |].
    simpl. apply (NoDup_fmap_2 Z.of_nat [1; 2; 3]%nat), NoDup_ListNoDup.
    repeat (constructor; [simpl; lia |]). constructor. }
  split; [exact Hk |]. by apply primary_key_is_kept.
Defined.

Lemma mutation_keeps_other_users_listing_witness :
  select_tasks 7 (db (fst (mutate (Delete 1) request_of_8 8 (mkEnv 220 no_faults)
                             sample_world)))
  = select_tasks 7 (db sample_world).
Proof.
  apply (mutation_keeps_other_users_listing (Delete 1) request_of_8 8
           (mkEnv 220 no_faults) sample_world 7).
  lia.
Defined.

Lemma cache_stays_coherent_witness :
  coherent quiet_world
  /\ (snd (list_tasks 7 (run sample_trace quiet_world))
      = Return (Rows (select_tasks 7 (db (run sample_trace quiet_world))))
      \/ snd (list_tasks 7 (run sample_trace quiet_world))
         = Return (Cached (json_dumps
                             (select_tasks 7 (db (run sample_trace quiet_world)))))).
Proof.
  split; [exact quiet_world_coherent |].
  destruct (cache_stays_coherent sample_trace quiet_world quiet_world_coherent)
    as [_ Hlist].
  exact (Hlist 7).
Defined.

Lemma create_done_list_witness :
  wf (db sample_world)
  /\ exists w1 row w2 w3 l,
       create_task (mkTaskIn "water plants") sample_request 7 (mkEnv 200 refused)
         sample_world = (w1, Return row)
       /\ mark_done (id row) sample_request 7 (mkEnv 300 no_faults) w1
          = (w2, Return (set_status "done" 300 row))
       /\ list_tasks 7 w2 = (w3, Return (Rows l))
       /\ filter (fun t => id t = id row) l = [set_status "done" 300 row].
Proof.
  split; [exact TaskFacts.sample_world_wf |].
  destruct (create_done_list (mkTaskIn "water plants") sample_request sample_request 7
              (mkEnv 200 refused) (mkEnv 300 no_faults) sample_world
              TaskFacts.sample_world_wf)
    as (w1 & row & w2 & w3 & l & Hc & Hm & Hl & _ & Honce).
  exists w1, row, w2, w3, l. auto.
Defined.

Lemma notification_is_delivered_witness :
  outbox (fst (create_task (mkTaskIn "water plants") sample_request 7
                 (mkEnv 200 no_faults) sample_world))
  = [mkMessage "<p>Your task '<b>water plants</b>' was created.</p>"
       "Task created" "no-reply@example.com" "seven@example.com"].
Proof.
  destruct (notification_is_delivered sample_request 7 (mkEnv 200 no_faults)
              sample_world "seven@example.com") as [Hcreate _].
  - discriminate.
  - reflexivity.
  - discriminate.
  - repeat split. by right.
  - apply (Hcreate (mkTaskIn "water plants")).
Defined.

Lemma list_tasks_populates_witness :
  Redis.get (cache_key_tasks 8) (redis sample_world) = None
  /\ Redis.get (cache_key_tasks 8)
       (redis (with_redis
                 (Redis.elapse 30 (redis (fst (list_tasks 8 sample_world))))
                 (fst (list_tasks 8 sample_world))))
     = None.
Proof.
  split; [reflexivity |].
  apply (TaskFacts.list_tasks_populates 8 sample_world 30); [reflexivity | lia].
Defined.

End TaskExtra.


(** ** Further properties of the user service *)

Module UserExtra.

Import UserService Invariants.

Section Facts.
Context `{Crypto}.

(** *** Token verification *)


(** *** Login *)

(** [login] never changes the table.  It fails in one way only, whether the
    email is unknown or the password wrong; when it returns, the first row
    with that email verifies the password and the token carries that row's
    key as subject and expires 30 minutes later. *)
Theorem login_outcomes user now d :
  fst (login user now d) = d
  /\ match snd (login user now d) with
     | Raise ex => ex = HTTPException 401 "Incorrect email or password"
     | Return tok =>
         exists r,
           find (fun r => bool_decide (email r = ul_email user)) (rows d) = Some r
           /\ verify_password (ul_password user) (password_hash r) = true
           /\ tok = mkTokenOut
                      (jwt_encode (<["exp" := now + 30 * 60]> {["sub" := id r]})
                         SECRET_KEY ALGORITHM)
                      "bearer"
     end.
Proof.
  unfold login.
  destruct (find _ (rows d)) as [r |] eqn:Hf; simpl; [| done].
  destruct (verify_password (ul_password user) (password_hash r)) eqn:Hv; simpl;
    [| done].
  split; [done |]. exists r. done.
Qed.

(** *** Token lifetime *)

(** [create_access_token] tests the lifetime for truth: a zero lifetime is
    taken like none and the expiry is 15 minutes after issue; any other
    lifetime is added to the time of issue.  The expiry replaces an "exp"
    already among the claims, and the other claims are signed as given. *)
Theorem zero_delta_takes_default data now :
  create_access_token data (Some 0) now = create_access_token data None now
  /\ create_access_token data None now
     = jwt_encode (<["exp" := now + 15 * 60]> data) SECRET_KEY ALGORITHM
  /\ forall delta,
       delta <> 0 ->
       create_access_token data (Some delta) now
       = jwt_encode (<["exp" := now + delta]> data) SECRET_KEY ALGORITHM.
Proof.
  split; [reflexivity |]. split; [reflexivity |].
  intros delta Hd. unfold create_access_token.
  destruct (delta =? 0) eqn:Hz; [| reflexivity].
  apply Z.eqb_eq in Hz. contradiction.
Qed.

(** *** The table *)

Lemma login_keeps_table user now d : fst (login user now d) = d.
Proof.
  unfold login. destruct (find _ (rows d)) as [r |]; [| done].
  by destruct (negb _).
Qed.

Lemma register_unfold user now d :
  register user now d
  = match find (fun r => bool_decide (email r = uc_email user)
                         || bool_decide (username r = uc_username user)) (rows d) with
    | Some _ => (d, Raise (HTTPException 400 "Email or username already registered"))
    | None =>
        (mkUsers (rows d ++ [mkUserRow (id_seq d) (uc_username user) (uc_email user)
                               (get_password_hash (uc_password user)) now])
                 (id_seq d + 1),
         Return (mkTokenOut
                   (jwt_encode (<["exp" := now + 30 * 60]> {["sub" := id_seq d]})
                      SECRET_KEY ALGORITHM)
                   "bearer"))
    end.
Proof. unfold register. by destruct (find _ (rows d)). Qed.

Lemma find_None_unused user d :
  find (fun r => bool_decide (email r = uc_email user)
                 || bool_decide (username r = uc_username user)) (rows d) = None
  <-> unused user d.
Proof.
  rewrite UserFacts.find_None_Forall. unfold unused.
  apply Forall_iff. intros r.
  rewrite orb_false_iff, !bool_decide_eq_false. done.
Qed.

(** Only a registration that finds neither the email nor the username
    changes the table, and it appends one row keyed by the next value of
    the sequence. *)
Theorem only_registration_adds_a_row c t d :
  fst (handle c t d) = d
  \/ exists user,
       c = PostRegister user /\ unused user d
       /\ fst (handle c t d)
          = mkUsers (rows d ++ [mkUserRow (id_seq d) (uc_username user) (uc_email user)
                                  (get_password_hash (uc_password user)) t])
                    (id_seq d + 1).
Proof.
  destruct c as [user | user | cr | cr | cr]; simpl; try by left.
  - rewrite register_unfold.
    destruct (find _ (rows d)) eqn:Hf; simpl; [by left |].
    right. exists user. split; [done |]. split; [| done].
    by apply find_None_unused.
  - left. pose proof (login_keeps_table user t d) as Hd.
    by destruct (login user t d).
Qed.

Lemma append_consistent user hash t d :
  consistent d -> unused user d ->
  consistent (mkUsers (rows d ++ [mkUserRow (id_seq d) (uc_username user)
                                    (uc_email user) hash t])
                      (id_seq d + 1)).
Proof.
  intros (He & Hn & Hi & Hlt) Hu.
  unfold unused in Hu. rewrite Forall_forall in Hu, Hlt.
  unfold consistent. simpl. rewrite !map_app. simpl.
  refine (conj _ (conj _ (conj _ _))).
  - apply NoDup_app. split; [done |]. split; [| apply NoDup_singleton].
    intros x Hx Hx'. apply list_elem_of_singleton in Hx'. subst x.
    apply list_elem_of_In, in_map_iff in Hx as (r & Hr & Hin).
    apply list_elem_of_In in Hin. by destruct (Hu r Hin).
  - apply NoDup_app. split; [done |]. split; [| apply NoDup_singleton].
    intros x Hx Hx'. apply list_elem_of_singleton in Hx'. subst x.
    apply list_elem_of_In, in_map_iff in Hx as (r & Hr & Hin).
    apply list_elem_of_In in Hin. by destruct (Hu r Hin).
  - apply NoDup_app. split; [done |]. split; [| apply NoDup_singleton].
    intros x Hx Hx'. apply list_elem_of_singleton in Hx'. subst x.
    apply list_elem_of_In, in_map_iff in Hx as (r & Hr & Hin).
    apply list_elem_of_In in Hin. specialize (Hlt r Hin). simpl in Hlt. lia.
  - apply Forall_app. split.
    + apply Forall_forall. intros r Hin. specialize (Hlt r Hin). simpl in *. lia.
    + constructor; [simpl; lia | constructor].
Qed.

Lemma handle_consistent c t d : consistent d -> consistent (fst (handle c t d)).
Proof.
  intros Hco. destruct c as [user | user | cr | cr | cr]; simpl; try done.
  - rewrite register_unfold.
    destruct (find _ (rows d)) eqn:Hf; simpl; [done |].
    apply append_consistent; [done |]. by apply find_None_unused.
  - pose proof (login_keeps_table user t d) as Hd.
    destruct (login user t d). simpl in *. by subst.
Qed.

(** Whatever requests are served, emails, usernames and keys stay pairwise
    distinct and the keys stay below the next value of the sequence. *)
Theorem users_stay_consistent calls d :
  consistent d -> consistent (serve calls d).
Proof.
  revert d. induction calls as [| [c t] calls IH]; intros d Hco; simpl; [done |].
  apply IH. by apply handle_consistent.
Qed.

(** *** Registration, then login and the token *)

Lemma find_in_middle {A} (f : A -> bool) (l1 l2 : list A) x :
  Forall (fun y => f y = false) l1 -> f x = true ->
  find f (l1 ++ x :: l2) = Some x.
Proof.
  intros Hl Hx. induction Hl as [| y l1 Hy _ IH]; simpl.
  - by rewrite Hx.
  - by rewrite Hy.
Qed.

Lemma serve_after_register user now d later :
  unused user d ->
  exists extra,
    rows (serve later (fst (register user now d)))
    = rows d ++ mkUserRow (id_seq d) (uc_username user) (uc_email user)
                  (get_password_hash (uc_password user)) now :: extra.
Proof.
  intros Hu. rewrite register_unfold.
  rewrite (proj2 (find_None_unused user d)) by done. simpl.
  destruct (UserFacts.serve_rows_grow later
              (mkUsers (rows d ++ [mkUserRow (id_seq d) (uc_username user)
                                     (uc_email user)
                                     (get_password_hash (uc_password user)) now])
                       (id_seq d + 1))) as [extra Hrows].
  exists extra. rewrite Hrows. simpl. by rewrite <- app_assoc.
Qed.

(** A user who has registered can log in with the same email and password,
    whatever requests were served in between; the token carries the key
    given at registration. *)
Theorem registered_user_can_login `{!PwdLaws} user now d later t :
  unused user d ->
  login (mkUserLogin (uc_email user) (uc_password user)) t
    (serve later (fst (register user now d)))
  = (serve later (fst (register user now d)),
     Return (mkTokenOut
               (jwt_encode (<["exp" := t + 30 * 60]> {["sub" := id_seq d]})
                  SECRET_KEY ALGORITHM)
               "bearer")).
Proof.
  intros Hu. destruct (serve_after_register user now d later Hu) as [extra Hrows].
  unfold login. rewrite Hrows. simpl ul_email. simpl ul_password.
  rewrite find_in_middle.
  - simpl. unfold verify_password, get_password_hash. by rewrite verify_hash.
  - unfold unused in Hu. eapply Forall_impl; [exact Hu |].
    simpl. intros r [He _]. by apply bool_decide_eq_false.
  - simpl. by apply bool_decide_eq_true.
Qed.

(** No token that registration or login returns is accepted by this
    service: its subject is a number, which the decoder refuses, so at any
    time and on any table [get_current_user] raises 401, and the
    validation, profile and user-listing routes answer 401 "Could not
    validate credentials" and leave the table as it is. *)
Theorem minted_token_opens_no_route `{!JoseLaws} c now d d' s tok time d2 :
  handle c now d = (d', Reply s (TokenBody tok)) ->
  get_current_user (access_token tok) time d2
  = Raise (HTTPException 401 "Could not validate credentials")
  /\ handle (GetValidate (access_token tok)) time d2
     = (d2, Reject 401 "Could not validate credentials")
  /\ handle (GetProfile (access_token tok)) time d2
     = (d2, Reject 401 "Could not validate credentials")
  /\ handle (GetUsers (access_token tok)) time d2
     = (d2, Reject 401 "Could not validate credentials").
Proof.
  intros Hh.
  destruct (UserFacts.minted_token _ _ _ _ _ _ Hh) as (uid & Htok & _).
  assert (Hcur : get_current_user (access_token tok) time d2
                 = Raise (HTTPException 401 "Could not validate credentials")).
  { unfold get_current_user. rewrite Htok.
    rewrite (jwt_decode_int_sub _ _ _ _ _ _ uid); [done |].
    by rewrite lookup_insert_ne, lookup_singleton_eq. }
  split; [exact Hcur |]. simpl. rewrite Hcur. simpl. done.
Qed.

End Facts.

(** *** The properties on sample tables *)

#[local] Existing Instance Reference.plain_crypto.
#[local] Existing Instance UserFacts.plain_crypto_jose.

Import Reference Samples.

#[local] Instance plain_crypto_pwd : PwdLaws.
Proof. constructor. intros p. simpl. by apply bool_decide_eq_true. Qed.

Lemma no_users_consistent : consistent no_users.
Proof. repeat split; simpl; constructor. Qed.

Lemma users_stay_consistent_witness :
  consistent no_users
  /\ consistent (serve [(PostRegister alice, 1000); (PostRegister bob, 1100);
                        (PostRegister alice, 1200)] no_users).
Proof.
  split; [exact no_users_consistent |].
  apply users_stay_consistent. exact no_users_consistent.
Defined.

Lemma registered_user_can_login_witness :
  exists tok,
    snd (login (mkUserLogin "a@x.com" "p1") 1500
           (serve [(PostRegister bob, 1100)] (fst (register alice 1000 no_users))))
    = Return tok.
Proof.
  eexists.
  rewrite (registered_user_can_login alice 1000 no_users [(PostRegister bob, 1100)] 1500).
  - reflexivity.
  - constructor.
Defined.

Lemma minted_token_opens_no_route_witness :
  let d := fst (handle (PostRegister alice) 1000 no_users) in
  handle (GetUsers ({["sub" := 1; "exp" := 2800]},
                    "your-secret-key-change-in-production", "HS256")) 1001 d
  = (d, Reject 401 "Could not validate credentials").
Proof.
  intros d.
  destruct (@minted_token_opens_no_route plain_crypto _
              (PostRegister alice) 1000 no_users d 200
              (@mkTokenOut plain_crypto
                 ({["sub" := 1; "exp" := 2800]},
                  "your-secret-key-change-in-production", "HS256") "bearer")
              1001 d) as (_ & _ & _ & Husers).
  - vm_compute. reflexivity.
  - exact Husers.
Defined.

End UserExtra.
